(** * The two MNIST notebooks: a VAE skeleton and a convolutional classifier

    The repository holds two Jupyter notebooks written against PyTorch.
    The first one defines the class [VAE] (methods [__init__], [encode],
    [reparameterize], [decode], [forward]), [loss_function], [train] and
    [test]; several of these are left as exercises, their bodies holding
    only [# TODO] comments.  The second one defines the class [Net] and its
    [forward] method in full.

    The development has three layers:
    - [torch]: tensors as a shape and row-major data over the reals, with
      the framework functions the notebooks call ([F.linear], [F.conv2d],
      [F.max_pool2d], [F.relu], [torch.sigmoid], [Tensor.view],
      [F.dropout]).  A shape mismatch raises, as in the framework.
    - [Py]: the part of Python the notebooks use.  Simple statements are
      embedded as functions on the interpreter state in a state-and-exception
      monad; compound statements ([for], [with], [def], [class]) keep their
      indented suite as a list of statements, because a suite that holds only
      comments is rejected by the Python compiler.
    - the notebooks themselves, statement by statement. *)

From Stdlib Require Import Reals Lra Lia List String ZArith Bool Arith.
From stdpp Require Import gmap strings.
Import ListNotations.
Open Scope string_scope.
Open Scope nat_scope.
Open Scope list_scope.

(** ** Exceptions and results *)

Inductive exn :=
| IndentationError               (* "expected an indented block" *)
| NameError (name : string)      (* "name ... is not defined" *)
| AttributeError (attr : string)
| TypeError (what : string)
| RuntimeError (what : string).  (* raised by the framework on a shape mismatch *)

Inductive result (A : Type) :=
| Ok (a : A)
| Raise (e : exn).

Arguments Ok {A} a.
Arguments Raise {A} e.

(** [result] is an exception monad; [x ← r; k] is stdpp's bind notation. *)
#[global] Instance result_ret : MRet result := fun A a => Ok a.

#[global] Instance result_bind : MBind result := fun A B k r =>
  match r with
  | Ok a => k a
  | Raise e => Raise e
  end.

(** ** Tensors and the framework functions *)

Module torch.

(** A tensor is its [shape] and its elements in row-major order.  The
    elements are real numbers: rounding, infinities and NaN of the 32-bit
    floats are outside this model. *)
Record Tensor := mkTensor { shape : list nat; data : list R }.

(** Number of elements of a tensor of the given shape. *)
Definition numel (s : list nat) : nat := fold_right Nat.mul 1 s.

(** The invariant that the framework maintains for every tensor. *)
Definition well_formed (t : Tensor) : Prop := length (data t) = numel (shape t).

Definition item (t : Tensor) (k : nat) : R := nth k (data t) 0%R.

Definition shape_eqb (s1 s2 : list nat) : bool :=
  bool_decide (s1 = s2).

(** [sum_over n f] is f 0 + ... + f (n-1); [max_over n f] is the largest of
    f 0, ..., f (n-1) (and f 0 when n is 0). *)
Definition sum_over (n : nat) (f : nat -> R) : R :=
  fold_right (fun k acc => (f k + acc)%R) 0%R (seq 0 n).

Definition max_over (n : nat) (f : nat -> R) : R :=
  fold_right (fun k acc => Rmax (f k) acc) (f 0) (seq 1 (n - 1)).

(** [torch.zeros(shape)] and a tensor filled with one value. *)
Definition full (s : list nat) (v : R) : Tensor := mkTensor s (repeat v (numel s)).
Definition zeros (s : list nat) : Tensor := full s 0%R.

(** [torch.sigmoid], elementwise 1 / (1 + exp(-v)). *)
Definition sigmoid (x : Tensor) : Tensor :=
  mkTensor (shape x) (map (fun v => (1 / (1 + exp (- v)))%R) (data x)).

(** [x.view(-1, cols)]: the same data seen as rows of [cols] elements.  The
    framework infers the -1 dimension as numel / cols and raises when cols
    does not divide the number of elements. *)
Definition view_rows (x : Tensor) (cols : nat) : result Tensor :=
  if (0 <? cols) && (numel (shape x) mod cols =? 0)
  then Ok (mkTensor [numel (shape x) / cols; cols] (data x))
  else Raise (RuntimeError "shape is invalid for input size").

End torch.

(** [torch.nn.functional], imported by both notebooks as [F]. *)
Module F.
Import torch.

(** [F.relu], elementwise max(0, v). *)
Definition relu (x : Tensor) : Tensor :=
  mkTensor (shape x) (map (fun v => Rmax 0 v) (data x)).

(** [F.linear(input, weight, bias)] = input @ weight.T + bias.  [weight]
    has shape [out; in]; [input] has shape [...; in]; every row of [in]
    elements is mapped to a row of [out] elements. *)
Definition linear (input weight bias : Tensor) : result Tensor :=
  match shape weight, rev (shape input) with
  | [o; i], k :: lead =>
      if (k =? i) && shape_eqb (shape bias) [o]
      then Ok (mkTensor (rev lead ++ [o])
                 (flat_map (fun r =>
                    map (fun j =>
                      (sum_over i (fun c => item input (r * i + c) * item weight (j * i + c))
                       + item bias j)%R)
                      (seq 0 o))
                    (seq 0 (numel (rev lead)))))
      else Raise (RuntimeError "mat1 and mat2 shapes cannot be multiplied")
  | _, _ => Raise (RuntimeError "mat1 and mat2 shapes cannot be multiplied")
  end.

(** [F.conv2d(input, weight, bias)] with stride 1 and no padding, the
    defaults of [nn.Conv2d].  [input] is a batch [n; c; h; w], [weight] is
    [o; c; kh; kw]; the result is [n; o; h-kh+1; w-kw+1].  The notebooks
    pass batches only; an input of another rank is an error here. *)
Definition conv2d (input weight bias : Tensor) : result Tensor :=
  match shape input, shape weight with
  | [n; c; h; w], [o; c'; kh; kw] =>
      if (c =? c') && (1 <=? kh) && (1 <=? kw) && (kh <=? h) && (kw <=? w)
         && shape_eqb (shape bias) [o]
      then
        let h' := h - kh + 1 in
        let w' := w - kw + 1 in
        Ok (mkTensor [n; o; h'; w']
              (flat_map (fun b =>
                 flat_map (fun f =>
                   flat_map (fun y =>
                     map (fun x =>
                       (sum_over c (fun ci =>
                          sum_over kh (fun dy =>
                            sum_over kw (fun dx =>
                              item weight (((f * c + ci) * kh + dy) * kw + dx)
                              * item input (((b * c + ci) * h + (y + dy)) * w + (x + dx)))))
                        + item bias f)%R)
                       (seq 0 w'))
                     (seq 0 h'))
                   (seq 0 o))
                 (seq 0 n)))
      else Raise (RuntimeError "conv2d: sizes do not match")
  | _, _ => Raise (RuntimeError "conv2d: expected 4-dimensional input and weight")
  end.

(** [F.max_pool2d(input, k)]: windows of k by k, stride k (the default
    stride is the kernel size), no padding, sizes rounded down.  As for
    [conv2d], the input is a batch [n; c; h; w]. *)
Definition max_pool2d (input : Tensor) (k : nat) : result Tensor :=
  match shape input with
  | [n; c; h; w] =>
      if (1 <=? k) && (k <=? h) && (k <=? w)
      then
        let h' := (h - k) / k + 1 in
        let w' := (w - k) / k + 1 in
        Ok (mkTensor [n; c; h'; w']
              (flat_map (fun b =>
                 flat_map (fun ci =>
                   flat_map (fun y =>
                     map (fun x =>
                       max_over k (fun dy =>
                         max_over k (fun dx =>
                           item input (((b * c + ci) * h + (y * k + dy)) * w + (x * k + dx)))))
                       (seq 0 w'))
                     (seq 0 h'))
                   (seq 0 c))
                 (seq 0 n)))
      else Raise (RuntimeError "max_pool2d: output size is too small")
  | _ => Raise (RuntimeError "max_pool2d: expected 4-dimensional input")
  end.

(** [F.dropout(input, p=0.5, training)]: the identity when [training] is
    false; otherwise every element is kept with probability 1 - p and
    scaled by 1 / (1 - p), or set to zero.  [u] holds the uniform draws. *)
Definition dropout (input : Tensor) (training : bool) (u : nat -> R) : Tensor :=
  if training
  then mkTensor (shape input)
         (map (fun k => if Rlt_dec (u k) (1 / 2) then 0%R else (item input k * 2)%R)
              (seq 0 (length (data input))))
  else input.

End F.

(** ** [torch.nn]: layers and modules *)

Module nn.
Import torch.

(** The two kinds of layer the notebooks create, with their parameters. *)
Inductive layer :=
| Linear_layer (in_features out_features : nat) (weight bias : Tensor)
| Conv2d_layer (in_channels out_channels kernel_size : nat) (weight bias : Tensor).

(** Calling a layer on an input runs its [forward]. *)
Definition layer_call (l : layer) (x : Tensor) : result Tensor :=
  match l with
  | Linear_layer _ _ w b => F.linear x w b
  | Conv2d_layer _ _ _ w b => F.conv2d x w b
  end.

(** The constructors fill the parameters with random initial values;
    [init] is the stream of values drawn. *)
Definition draw (s : list nat) (init : nat -> R) : Tensor :=
  mkTensor s (map init (seq 0 (numel s))).

(** [nn.Linear(i, o)]: weight of shape [o; i], bias of shape [o]. *)
Definition Linear (i o : nat) (init : nat -> R) : layer :=
  Linear_layer i o (draw [o; i] init) (draw [o] (fun k => init (o * i + k))).

(** [nn.Conv2d(c, o, kernel_size=k)]: weight [o; c; k; k], bias [o]. *)
Definition Conv2d (c o k : nat) (init : nat -> R) : layer :=
  Conv2d_layer c o k (draw [o; c; k; k] init)
    (draw [o] (fun n => init (o * c * k * k + n))).

(** Number of values a constructor draws. *)
Definition Linear_draws (i o : nat) : nat := o * i + o.
Definition Conv2d_draws (c o k : nat) : nat := o * c * k * k + o.

(** An [nn.Module] instance: its registered sub-modules by attribute name
    (they hold every weight and bias tensor of the model) and the
    [training] flag switched by [.train()] and [.eval()]. *)
Record module := mkModule { _modules : gmap string layer; training : bool }.

(** Reading a sub-module by its attribute name. *)
Definition get_layer (m : module) (attr : string) : result layer :=
  match _modules m !! attr with
  | Some l => Ok l
  | None => Raise (AttributeError attr)
  end.

(** A registered [Linear] (or [Conv2d]) layer with parameters of the shapes
    its constructor gives them. *)
Definition has_linear (m : module) (name : string) (i o : nat) : bool :=
  match _modules m !! name with
  | Some (Linear_layer _ _ w b) => shape_eqb (shape w) [o; i] && shape_eqb (shape b) [o]
  | _ => false
  end.

Definition has_conv2d (m : module) (name : string) (c o k : nat) : bool :=
  match _modules m !! name with
  | Some (Conv2d_layer _ _ _ w b) =>
      shape_eqb (shape w) [o; c; k; k] && shape_eqb (shape b) [o]
  | _ => false
  end.

End nn.

(** ** The part of Python the notebooks use *)

Module Py.
Import torch.

#[warnings="-register-all"]
Inductive value :=
| VNone
| VInt (n : Z)
| VTensor (t : Tensor)
| VTuple (vs : list value)
| VLayer (l : nn.layer)
| VModel                                      (* the notebook's model instance, [self] in its methods *)
| VLoader (batches : list (Tensor * Tensor))  (* a DataLoader: the batches (data, labels) of one pass *)
| VOpaque (what : string).                    (* imported modules, datasets, the optimizer *)

(** The interpreter state.  [locals] is the frame of the running function,
    [globals] the notebook's namespace; [model_obj] is the one [nn.Module]
    instance of the notebook, which [model] and [self] both refer to;
    [grad_enabled] is the autograd mode; [rng] is the stream of values the
    framework's random generator will return. *)
Record state := mkState {
  locals : gmap string value;
  globals : gmap string value;
  model_obj : nn.module;
  grad_enabled : bool;
  rng : nat -> R
}.

Definition set_locals (l : gmap string value) (s : state) : state :=
  mkState l (globals s) (model_obj s) (grad_enabled s) (rng s).

Definition set_model (m : nn.module) (s : state) : state :=
  mkState (locals s) (globals s) m (grad_enabled s) (rng s).

Definition set_grad_enabled (g : bool) (s : state) : state :=
  mkState (locals s) (globals s) (model_obj s) g (rng s).

Definition advance (n : nat) (s : state) : state :=
  mkState (locals s) (globals s) (model_obj s) (grad_enabled s) (fun k => rng s (n + k)).

(** Every weight and bias tensor of the model. *)
Definition parameters (s : state) : gmap string nn.layer := nn._modules (model_obj s).

(** Expressions may read and change the state and may raise. *)
Definition M (A : Type) : Type := state -> result A * state.

#[global] Instance M_ret : MRet M := fun A a s => (Ok a, s).

#[global] Instance M_bind : MBind M := fun A B k m s =>
  match m s with
  | (Ok a, s') => k a s'
  | (Raise e, s') => (Raise e, s')
  end.

Definition raise {A} (e : exn) : M A := fun s => (Raise e, s).

Definition lift {A} (r : result A) : M A := fun s => (r, s).

(** Reading a name: the frame first, then the notebook's namespace. *)
Definition load (x : string) : M value := fun s =>
  match locals s !! x with
  | Some v => (Ok v, s)
  | None =>
      match globals s !! x with
      | Some v => (Ok v, s)
      | None => (Raise (NameError x), s)
      end
  end.

Definition as_tensor (v : value) : M Tensor :=
  match v with
  | VTensor t => mret t
  | _ => raise (TypeError "expected a Tensor")
  end.

Definition load_tensor (x : string) : M Tensor := v ← load x; as_tensor v.

(** [obj.attr] where the attribute is a registered layer. *)
Definition getattr (obj : M value) (attr : string) : M nn.layer :=
  o ← obj;
  match o with
  | VModel => fun s => (nn.get_layer (model_obj s) attr, s)
  | _ => raise (AttributeError attr)
  end.

(** [obj.training] *)
Definition get_training (obj : M value) : M bool :=
  o ← obj;
  match o with
  | VModel => fun s => (Ok (nn.training (model_obj s)), s)
  | _ => raise (AttributeError "training")
  end.

(** [f(x)] for a layer [f]: callee first, then the argument. *)
Definition call_layer (f : M nn.layer) (arg : M Tensor) : M Tensor :=
  l ← f; x ← arg; lift (nn.layer_call l x).

(** Statements.  A simple statement carries its embedding; a compound
    statement carries its indented suite. *)
#[warnings="-register-all"]
Inductive stmt :=
| Assign (target : string) (e : M value)              (* target = e *)
| SetAttr (obj : string) (attr : string) (e : M value) (* obj.attr = e *)
| Expr (e : M value)                                  (* e *)
| Return (e : M value)                                (* return e *)
| For (bind : value -> M unit) (iter : M (list value)) (body : list stmt)
| With (enter : M (state -> state)) (body : list stmt).

Inductive outcome :=
| Normal (s : state)
| Returned (v : value) (s : state)
| Raised (e : exn) (s : state).

Definition state_of (o : outcome) : state :=
  match o with
  | Normal s | Returned _ s | Raised _ s => s
  end.

Definition assign_local (x : string) (v : value) (s : state) : state :=
  set_locals (<[x := v]> (locals s)) s.

(** [obj.attr = v]: assigning a layer to an attribute of the model
    registers it as a sub-module. *)
Definition setattr (obj : string) (attr : string) (v : value) : M unit :=
  o ← load obj;
  match o, v with
  | VModel, VLayer l => fun s =>
      (Ok (), set_model (nn.mkModule (<[attr := l]> (nn._modules (model_obj s)))
                           (nn.training (model_obj s))) s)
  | _, _ => raise (AttributeError attr)
  end.

(** The iterations of a [for] loop: bind the target to the next item, run
    the suite, go on unless the suite returned or raised. *)
Fixpoint for_loop (bind : value -> M unit) (run_body : state -> outcome)
    (items : list value) (s : state) : outcome :=
  match items with
  | [] => Normal s
  | i :: rest =>
      match bind i s with
      | (Ok _, s1) =>
          match run_body s1 with
          | Normal s2 => for_loop bind run_body rest s2
          | o => o
          end
      | (Raise err, s1) => Raised err s1
      end
  end.

(** Running a statement.  A suite runs its statements in order until one
    returns or raises; a [with] block runs its exit action however the suite
    ends. *)
Fixpoint exec (st : stmt) (s : state) {struct st} : outcome :=
  let exec_suite :=
    fix exec_suite (b : list stmt) (s : state) {struct b} : outcome :=
      match b with
      | [] => Normal s
      | st' :: b' =>
          match exec st' s with
          | Normal s' => exec_suite b' s'
          | o => o
          end
      end in
  match st with
  | Assign x e =>
      match e s with
      | (Ok v, s') => Normal (assign_local x v s')
      | (Raise err, s') => Raised err s'
      end
  | SetAttr obj attr e =>
      match e s with
      | (Ok v, s') =>
          match setattr obj attr v s' with
          | (Ok _, s'') => Normal s''
          | (Raise err, s'') => Raised err s''
          end
      | (Raise err, s') => Raised err s'
      end
  | Expr e =>
      match e s with
      | (Ok _, s') => Normal s'
      | (Raise err, s') => Raised err s'
      end
  | Return e =>
      match e s with
      | (Ok v, s') => Returned v s'
      | (Raise err, s') => Raised err s'
      end
  | For bind iter body =>
      match iter s with
      | (Ok items, s') => for_loop bind (exec_suite body) items s'
      | (Raise err, s') => Raised err s'
      end
  | With enter body =>
      match enter s with
      | (Ok leave, s') =>
          match exec_suite body s' with
          | Normal s2 => Normal (leave s2)
          | Returned v s2 => Returned v (leave s2)
          | Raised err s2 => Raised err (leave s2)
          end
      | (Raise err, s') => Raised err s'
      end
  end.

Fixpoint exec_suite (b : list stmt) (s : state) : outcome :=
  match b with
  | [] => Normal s
  | st :: b' =>
      match exec st s with
      | Normal s' => exec_suite b' s'
      | o => o
      end
  end.

(** The compiler's check on indentation: the suite of every compound
    statement holds at least one statement.  Comments are not statements. *)
Fixpoint stmt_ok (st : stmt) : bool :=
  match st with
  | For _ _ body | With _ body =>
      match body with [] => false | _ => forallb stmt_ok body end
  | _ => true
  end.

Definition suite_ok (b : list stmt) : bool :=
  match b with [] => false | _ => forallb stmt_ok b end.

(** A function definition: [def name(params):] and its suite. *)
Record def := mkDef { def_name : string; def_params : list string; def_body : list stmt }.

Definition def_ok (d : def) : bool := suite_ok (def_body d).

Definition bind_params (params : list string) (args : list value) : option (gmap string value) :=
  if length params =? length args
  then Some (list_to_map (zip params args))
  else None.

(** Calling a function, the [def] taken on its own.  A [def] whose suite
    fails the indentation check is rejected by the compiler, so no function
    object ever exists for it: the attempt to use it ends in that error with
    the state untouched.  Otherwise the arguments are bound in a fresh
    frame, the suite runs, and the caller's frame is restored; running off
    the end of the suite returns [None].  Whether the cell around the [def]
    compiles is [compile_cell] below. *)
Definition call (d : def) (args : list value) : M value := fun s =>
  if def_ok d then
    match bind_params (def_params d) args with
    | Some frame =>
        match exec_suite (def_body d) (set_locals frame s) with
        | Normal s' => (Ok VNone, set_locals (locals s) s')
        | Returned v s' => (Ok v, set_locals (locals s) s')
        | Raised err s' => (Raise err, set_locals (locals s) s')
        end
    | None => (Raise (TypeError "wrong number of arguments"), s)
    end
  else (Raise IndentationError, s).

(** The interpreter before any cell has run. *)
Definition initial_state (g : gmap string value) (r : nat -> R) : state :=
  mkState ∅ g (nn.mkModule ∅ true) true r.

(** The top-level statements of a notebook cell. *)
Inductive top :=
| Stmt (st : stmt)
| FunctionDef (d : def)
| ClassDef (name : string) (methods : list def).

Definition top_ok (t : top) : bool :=
  match t with
  | Stmt st => stmt_ok st
  | FunctionDef d => def_ok d
  | ClassDef _ methods =>
      match methods with [] => false | _ => forallb def_ok methods end
  end.

(** A cell is compiled as a whole before any of its statements runs. *)
Definition compile_cell (c : list top) : result unit :=
  if forallb top_ok c then Ok () else Raise IndentationError.

End Py.

(** ** Framework calls as expressions *)

Module Calls.
Import torch Py.

(** [F.relu(e)], [torch.sigmoid(e)] *)
Definition relu (e : M Tensor) : M Tensor := x ← e; mret (F.relu x).
Definition sigmoid (e : M Tensor) : M Tensor := x ← e; mret (torch.sigmoid x).

(** [F.max_pool2d(e, k)] *)
Definition max_pool2d (e : M Tensor) (k : nat) : M Tensor := x ← e; lift (F.max_pool2d x k).

(** [e.view(-1, cols)] *)
Definition view (e : M Tensor) (cols : nat) : M Tensor := x ← e; lift (torch.view_rows x cols).

(** [F.dropout(e, training=t)]: when training, one uniform draw per
    element is taken from the generator.  How far the framework's own
    sampler moves its generator is not modelled: nothing is claimed about
    the position of the generator after a dropout in training mode. *)
Definition dropout (e : M Tensor) (t : M bool) : M Tensor :=
  x ← e; b ← t;
  ((fun s => (Ok (F.dropout x b (rng s)),
              if b then advance (length (data x)) s else s)) : M Tensor).

(** A tensor as the value of an expression. *)
Definition tensor_value (e : M Tensor) : M value := x ← e; mret (VTensor x).

(** [nn.Linear(i, o)] and [nn.Conv2d(c, o, kernel_size=k)] *)
Definition Linear (i o : nat) : M value := fun s =>
  (Ok (VLayer (nn.Linear i o (rng s))), advance (nn.Linear_draws i o) s).

Definition Conv2d (c o k : nat) : M value := fun s =>
  (Ok (VLayer (nn.Conv2d c o k (rng s))), advance (nn.Conv2d_draws c o k) s).

(** [super(C, self).__init__()]: [nn.Module.__init__] gives the instance an
    empty registry of sub-modules and puts it in training mode. *)
Definition Module___init__ (self : M value) : M value :=
  o ← self;
  match o with
  | VModel => fun s => (Ok VNone, set_model (nn.mkModule ∅ true) s)
  | _ => raise (TypeError "not an nn.Module")
  end.

(** [obj.train()] and [obj.eval()] set the [training] flag and return
    the module. *)
Definition set_training (obj : M value) (t : bool) : M value :=
  o ← obj;
  match o with
  | VModel => fun s => (Ok VModel, set_model (nn.mkModule (nn._modules (model_obj s)) t) s)
  | _ => raise (AttributeError (if t then "train" else "eval"))
  end.

Definition Module_train (obj : M value) : M value := set_training obj true.
Definition Module_eval (obj : M value) : M value := set_training obj false.

(** [torch.no_grad()] as a context manager: entering records the autograd
    mode and disables it, leaving restores the recorded mode. *)
Definition no_grad : M (state -> state) := fun s =>
  (Ok (set_grad_enabled (grad_enabled s)), set_grad_enabled false s).

(** [enumerate(loader)]: the pairs (index, (data, labels)).  The batches of
    the pass are given with the loader; the values a shuffling loader takes
    from the random generator to order them are not modelled, so nothing
    that is proved about a loop over a loader speaks of [rng]. *)
Definition enumerate (loader : M value) : M (list value) :=
  l ← loader;
  match l with
  | VLoader batches =>
      mret (imap (fun i b => VTuple [VInt (Z.of_nat i); VTuple [VTensor (fst b); VTensor (snd b)]])
              batches)
  | _ => raise (TypeError "object is not iterable")
  end.

(** The loop target [i, (data, _)] *)
Definition unpack_index_data (i data ignored : string) (v : value) : M unit :=
  match v with
  | VTuple [vi; VTuple [vd; vl]] => fun s =>
      (Ok (), assign_local ignored vl (assign_local data vd (assign_local i vi s)))
  | _ => raise (TypeError "cannot unpack")
  end.

(** The loop target of a module-level [for epoch in ...]: at module level
    a name is bound in the notebook's namespace. *)
Definition bind_name (x : string) (v : value) : M unit := fun s =>
  (Ok (), mkState (locals s) (<[x := v]> (globals s)) (model_obj s) (grad_enabled s) (rng s)).

(** [range(a, b)] *)
Definition range (a b : Z) : M (list value) :=
  mret (map (fun k => VInt (a + Z.of_nat k)) (seq 0 (Z.to_nat (b - a)))).

End Calls.

(** ** The first notebook: "Basic VAE implementation" *)

Module BasicVAE.
Import torch Py Calls.

Module VAE.

(** <<
    def __init__(self):
        super(VAE, self).__init__()
        self.fc1 = nn.Linear(784, 400)
        self.fc21 = nn.Linear(400, 20)
        self.fc22 = nn.Linear(400, 20)
        self.fc3 = nn.Linear(20, 400)
        self.fc4 = nn.Linear(400, 784)
    >> *)
Definition __init__ : def := mkDef "__init__" ["self"]
  [ Expr (Module___init__ (load "self"));
    SetAttr "self" "fc1" (Linear 784 400);
    SetAttr "self" "fc21" (Linear 400 20);
    SetAttr "self" "fc22" (Linear 400 20);
    SetAttr "self" "fc3" (Linear 20 400);
    SetAttr "self" "fc4" (Linear 400 784) ].

(** <<
    def encode(self, x):
        h1 = F.relu(self.fc1(x))
        return self.fc21(h1), self.fc22(h1)
    >> *)
Definition encode : def := mkDef "encode" ["self"; "x"]
  [ Assign "h1"
      (tensor_value (relu (call_layer (getattr (load "self") "fc1") (load_tensor "x"))));
    Return
      (mu ← call_layer (getattr (load "self") "fc21") (load_tensor "h1");
       logvar ← call_layer (getattr (load "self") "fc22") (load_tensor "h1");
       mret (VTuple [VTensor mu; VTensor logvar])) ].

(** <<
    def reparameterize(self, mu, logvar):
        # TODO: write some code which returns a random sample from the
        # approximate posterior q(z|x) here
    >>
    The suite holds the comment only. *)
Definition reparameterize : def := mkDef "reparameterize" ["self"; "mu"; "logvar"] [].

(** <<
    def decode(self, z):
        h3 = F.relu(self.fc3(z))
        return torch.sigmoid(self.fc4(h3))
    >> *)
Definition decode : def := mkDef "decode" ["self"; "z"]
  [ Assign "h3"
      (tensor_value (relu (call_layer (getattr (load "self") "fc3") (load_tensor "z"))));
    Return
      (tensor_value (sigmoid (call_layer (getattr (load "self") "fc4") (load_tensor "h3")))) ].

(** <<
    def forward(self, x):
        # TODO: write some code which returns ...
        return recon, mu, logvar
    >>
    The one statement of the suite reads three names that the function
    never assigns and that are not among its parameters. *)
Definition forward : def := mkDef "forward" ["self"; "x"]
  [ Return
      (recon ← load "recon";
       mu ← load "mu";
       logvar ← load "logvar";
       mret (VTuple [recon; mu; logvar])) ].

End VAE.

(** The cell that defines the class and creates the model:
    the two imports, [class VAE(nn.Module): ...], [model = VAE()]. *)
Definition VAE_cell : list top :=
  [ Stmt (Assign "nn" (mret (VOpaque "torch.nn")));
    Stmt (Assign "F" (mret (VOpaque "torch.nn.functional")));
    ClassDef "VAE" [VAE.__init__; VAE.encode; VAE.reparameterize; VAE.decode; VAE.forward];
    Stmt (Assign "model" (_ ← call VAE.__init__ [VModel]; mret VModel)) ].

(** <<
    def loss_function(recon, x, mu, logvar):
        # TODO: write some code here to compute the negative ELBO shown above.
        # ...
    >> *)
Definition loss_function : def := mkDef "loss_function" ["recon"; "x"; "mu"; "logvar"] [].

Definition loss_cell : list top := [ FunctionDef loss_function ].

(** <<
    def train(epoch):
        model.train()
        train_loss = 0
        for batch_idx, (data, _) in enumerate(train_loader):
            # TODO: write some code here
    >> *)
Definition train : def := mkDef "train" ["epoch"]
  [ Expr (Module_train (load "model"));
    Assign "train_loss" (mret (VInt 0));
    For (unpack_index_data "batch_idx" "data" "_") (enumerate (load "train_loader")) [] ].

(** <<
    def test(epoch):
        model.eval()
        test_loss = 0
        with torch.no_grad():
            for i, (data, _) in enumerate(test_loader):
                # TODO: write some code here
    >> *)
Definition test : def := mkDef "test" ["epoch"]
  [ Expr (Module_eval (load "model"));
    Assign "test_loss" (mret (VInt 0));
    With no_grad
      [ For (unpack_index_data "i" "data" "_") (enumerate (load "test_loader")) [] ] ].

(** The cell with [train], [test] and the loop
    [for epoch in range(1, 5): train(epoch); test(epoch)]. *)
Definition train_cell : list top :=
  [ FunctionDef train;
    FunctionDef test;
    Stmt (For (bind_name "epoch") (range 1 5)
            [ Expr (e ← load "epoch"; call train [e]);
              Expr (e ← load "epoch"; call test [e]) ]) ].

(** Every name that some cell of the notebook binds at top level: imports,
    assignments, loop targets, [def] and [class] names. *)
Definition notebook_globals (train_batches test_batches : list (Tensor * Tensor))
  : gmap string value :=
  list_to_map
    [ ("np", VOpaque "numpy"); ("torch", VOpaque "torch");
      ("plt", VOpaque "matplotlib.pyplot");
      ("datasets", VOpaque "torchvision.datasets");
      ("transforms", VOpaque "torchvision.transforms");
      ("DataLoader", VOpaque "torch.utils.data.DataLoader");
      ("train_dataset", VOpaque "MNIST train"); ("test_dataset", VOpaque "MNIST test");
      ("i", VInt 101); ("im", VOpaque "image"); ("label", VOpaque "label");
      ("nn", VOpaque "torch.nn"); ("F", VOpaque "torch.nn.functional");
      ("VAE", VOpaque "class VAE"); ("model", VModel);
      ("loss_function", VOpaque "function loss_function");
      ("optim", VOpaque "torch.optim"); ("optimizer", VOpaque "Adam");
      ("train_loader", VLoader train_batches); ("test_loader", VLoader test_batches);
      ("train", VOpaque "function train"); ("test", VOpaque "function test");
      ("epoch", VInt 4) ].

(** The layers as [__init__] registers them: names and shapes. *)
Definition initialised (m : nn.module) : bool :=
  nn.has_linear m "fc1" 784 400 && nn.has_linear m "fc21" 400 20
  && nn.has_linear m "fc22" 400 20 && nn.has_linear m "fc3" 20 400
  && nn.has_linear m "fc4" 400 784.

(** A session in which the model has been constructed by [VAE()], with
    every name of the notebook bound and no data in the loaders. *)
Definition started : state :=
  snd (call VAE.__init__ [VModel] (initial_state (notebook_globals [] []) (fun _ => 0%R))).

(** Another interpreter that holds the same parameters: evaluation mode,
    autograd disabled, empty namespaces, another random generator. *)
Definition evaluating : state :=
  mkState ∅ ∅ (nn.mkModule (parameters started) false) false (fun _ => 1%R).

(** Modelled from the spec: the body of [reparameterize] is missing from the
    source; section 4.1 gives the sample as mean + exp(½·log-variance) ⊙
    noise, elementwise. *)
Definition reparameterize_spec (mu logvar eps : Tensor) : Tensor :=
  mkTensor (shape mu)
    (map (fun k => (item mu k + exp (1 / 2 * item logvar k) * item eps k)%R)
         (seq 0 (length (data mu)))).

(** Modelled from the spec: the body of [loss_function] is missing from the
    source; section 4.2 gives the KL term of one data point as
    -½·Σ(1 + log-variance − exp(log-variance) − mean²) over the latent
    dimensions. *)
Definition KL_term (mu logvar : list R) : R :=
  (- (1 / 2) * sum_over (length mu)
                 (fun j => 1 + nth j logvar 0 - exp (nth j logvar 0) - nth j mu 0 * nth j mu 0))%R.

End BasicVAE.

(** ** The second notebook: the convolutional classifier *)

Module AutodiffNnBasics.
Import torch Py Calls.

Module Net.

(** <<
    def __init__(self):
        super(Net, self).__init__()
        self.conv1 = nn.Conv2d(1, 10, kernel_size=5)
        self.conv2 = nn.Conv2d(10, 20, kernel_size=5)
        self.fc1 = nn.Linear(320, 50)
        self.fc2 = nn.Linear(50, 10)
    >> *)
Definition __init__ : def := mkDef "__init__" ["self"]
  [ Expr (Module___init__ (load "self"));
    SetAttr "self" "conv1" (Conv2d 1 10 5);
    SetAttr "self" "conv2" (Conv2d 10 20 5);
    SetAttr "self" "fc1" (Linear 320 50);
    SetAttr "self" "fc2" (Linear 50 10) ].

(** <<
    def forward(self, x):
        x = F.relu(F.max_pool2d(self.conv1(x), 2))
        x = F.relu(F.max_pool2d(self.conv2(x), 2))
        x = x.view(-1, 320)
        x = F.relu(self.fc1(x))
        x = F.dropout(x, training=self.training)
        x = self.fc2(x)
        return x
    >> *)
Definition forward : def := mkDef "forward" ["self"; "x"]
  [ Assign "x" (tensor_value
      (relu (max_pool2d (call_layer (getattr (load "self") "conv1") (load_tensor "x")) 2)));
    Assign "x" (tensor_value
      (relu (max_pool2d (call_layer (getattr (load "self") "conv2") (load_tensor "x")) 2)));
    Assign "x" (tensor_value (view (load_tensor "x") 320));
    Assign "x" (tensor_value
      (relu (call_layer (getattr (load "self") "fc1") (load_tensor "x"))));
    Assign "x" (tensor_value (dropout (load_tensor "x") (get_training (load "self"))));
    Assign "x" (tensor_value (call_layer (getattr (load "self") "fc2") (load_tensor "x")));
    Return (load "x") ].

End Net.

(** The cell that defines the class and creates the model. *)
Definition Net_cell : list top :=
  [ Stmt (Assign "nn" (mret (VOpaque "torch.nn")));
    Stmt (Assign "F" (mret (VOpaque "torch.nn.functional")));
    ClassDef "Net" [Net.__init__; Net.forward];
    Stmt (Assign "model" (_ ← call Net.__init__ [VModel]; mret VModel)) ].

(** The layers as [__init__] registers them: names and shapes. *)
Definition initialised (m : nn.module) : bool :=
  nn.has_conv2d m "conv1" 1 10 5 && nn.has_conv2d m "conv2" 10 20 5
  && nn.has_linear m "fc1" 320 50 && nn.has_linear m "fc2" 50 10.

(** A session in which the model has been constructed by [Net()] and put in
    evaluation mode. *)
Definition started : state :=
  snd (Module_eval (load "model")
         (snd (call Net.__init__ [VModel]
                 (initial_state {[ "model" := VModel ]} (fun _ => 0%R))))).

End AutodiffNnBasics.

(** ** More of the framework: indexing, elementwise functions, broadcasting *)

Module TensorOps.
Import torch.

(** Python's [IndexError].  The exceptions above have no constructor of
    that name; an index out of range is recorded as a [RuntimeError] whose
    text starts with the name of the class. *)
Definition IndexError (what : string) : exn :=
  RuntimeError (String.append "IndexError: " what).

(** [torch.tensor([v0, v1, ...])]: a 1-dimensional tensor. *)
Definition vector (l : list R) : Tensor := mkTensor [length l] l.

(** A 0-dimensional tensor holding one number. *)
Definition scalar (v : R) : Tensor := mkTensor [] [v].

(** [x[k]] for an integer k >= 0: the k-th slice along the first dimension;
    a 0-dimensional tensor cannot be indexed. *)
Definition select (x : Tensor) (k : nat) : result Tensor :=
  match shape x with
  | [] => Raise (IndexError "invalid index of a 0-dim tensor")
  | d :: rest =>
      if k <? d
      then Ok (mkTensor rest
                 (map (fun j => item x (k * numel rest + j)) (seq 0 (numel rest))))
      else Raise (IndexError "index is out of bounds for dimension 0")
  end.

(** Elementwise functions.  [torch.log] of an element that is not positive
    is NaN or -inf for the framework; the reals have neither, so what is
    proved about [log] assumes positive elements. *)
Definition pointwise (g : R -> R) (x : Tensor) : Tensor :=
  mkTensor (shape x) (map g (data x)).

Definition log (x : Tensor) : Tensor := pointwise ln x.
Definition sin (x : Tensor) : Tensor := pointwise Rtrigo_def.sin x.
Definition exp (x : Tensor) : Tensor := pointwise Rtrigo_def.exp x.
Definition tanh (x : Tensor) : Tensor := pointwise Rtrigo_def.tanh x.

(** [x ** n] for a Python integer n >= 0. *)
Definition pow (x : Tensor) (n : nat) : Tensor := pointwise (fun v => (v ^ n)%R) x.

(** Broadcasting.  Two shapes are aligned at their last dimension; two
    aligned dimensions must be equal or one of them 1; a missing leading
    dimension counts as 1.  The shapes are handled last dimension first. *)
Fixpoint broadcast_rev (s1 s2 : list nat) : result (list nat) :=
  match s1, s2 with
  | [], s => Ok s
  | s, [] => Ok s
  | d1 :: r1, d2 :: r2 =>
      if d1 =? d2 then r ← broadcast_rev r1 r2; Ok (d1 :: r)
      else if d1 =? 1 then r ← broadcast_rev r1 r2; Ok (d2 :: r)
      else if d2 =? 1 then r ← broadcast_rev r1 r2; Ok (d1 :: r)
      else Raise (RuntimeError "The size of tensor a must match the size of tensor b")
  end.

Definition broadcast_shapes (s1 s2 : list nat) : result (list nat) :=
  r ← broadcast_rev (rev s1) (rev s2); Ok (rev r).

(** The multi-index (last dimension first) of position [k] in row-major
    order, and the position that a multi-index of the broadcast result reads
    in an operand: a dimension of size 1 is read at 0, the leading
    dimensions the operand does not have are ignored. *)
Fixpoint unravel_rev (s_rev : list nat) (k : nat) : list nat :=
  match s_rev with
  | [] => []
  | d :: r => (k mod d) :: unravel_rev r (k / d)
  end.

Fixpoint ravel_rev (s_rev idx_rev : list nat) : nat :=
  match s_rev, idx_rev with
  | d :: r, i :: ir => (if d =? 1 then 0 else i) + d * ravel_rev r ir
  | _, _ => 0
  end.

Definition broadcast_op (op : R -> R -> R) (a b : Tensor) : result Tensor :=
  out ← broadcast_shapes (shape a) (shape b);
  Ok (mkTensor out
        (map (fun k =>
                let idx := unravel_rev (rev out) k in
                op (item a (ravel_rev (rev (shape a)) idx))
                   (item b (ravel_rev (rev (shape b)) idx)))
             (seq 0 (numel out)))).

(** [a + b], [a - b], [a * b] on tensors. *)
Definition add (a b : Tensor) : result Tensor := broadcast_op Rplus a b.
Definition sub (a b : Tensor) : result Tensor := broadcast_op Rminus a b.
Definition mul (a b : Tensor) : result Tensor := broadcast_op Rmult a b.

(** [torch.mean(x)]: the sum of the elements over their number, as a
    0-dimensional tensor.  (Of an empty tensor the framework returns NaN.) *)
Definition mean (x : Tensor) : Tensor :=
  scalar (fold_right Rplus 0%R (data x) / INR (length (data x)))%R.

(** [torch.mm(a, b)]: the product of two matrices. *)
Definition mm (a b : Tensor) : result Tensor :=
  match shape a, shape b with
  | [n; m], [m'; p] =>
      if m =? m'
      then Ok (mkTensor [n; p]
                 (flat_map (fun i =>
                    map (fun j => sum_over m (fun k => (item a (i * m + k) * item b (k * p + j))%R))
                        (seq 0 p))
                    (seq 0 n)))
      else Raise (RuntimeError "mat1 and mat2 shapes cannot be multiplied")
  | _, _ => Raise (RuntimeError "mm: both arguments must be matrices")
  end.

End TensorOps.

(** The same functions as expressions, operands evaluated left to right. *)
Module TensorCalls.
Import torch Py.

Definition getitem (e : M Tensor) (k : nat) : M Tensor := x ← e; lift (TensorOps.select x k).

Definition log (e : M Tensor) : M Tensor := x ← e; mret (TensorOps.log x).
Definition sin (e : M Tensor) : M Tensor := x ← e; mret (TensorOps.sin x).
Definition exp (e : M Tensor) : M Tensor := x ← e; mret (TensorOps.exp x).
Definition tanh (e : M Tensor) : M Tensor := x ← e; mret (TensorOps.tanh x).
Definition pow (e : M Tensor) (n : nat) : M Tensor := x ← e; mret (TensorOps.pow x n).
Definition mean (e : M Tensor) : M Tensor := x ← e; mret (TensorOps.mean x).

Definition add (e1 e2 : M Tensor) : M Tensor := a ← e1; b ← e2; lift (TensorOps.add a b).
Definition sub (e1 e2 : M Tensor) : M Tensor := a ← e1; b ← e2; lift (TensorOps.sub a b).
Definition mul (e1 e2 : M Tensor) : M Tensor := a ← e1; b ← e2; lift (TensorOps.mul a b).
Definition mm (e1 e2 : M Tensor) : M Tensor := a ← e1; b ← e2; lift (TensorOps.mm a b).

(** The number in the 0-dimensional tensor that a call returned. *)
Definition scalar_of (r : result value) : R :=
  match r with
  | Ok (VTensor t) => item t 0
  | _ => 0%R
  end.

(** A state with another random generator. *)
Definition with_rng (r : nat -> R) (s : state) : state :=
  mkState (locals s) (globals s) (model_obj s) (grad_enabled s) r.

End TensorCalls.

(** ** The second notebook, parts 2 and 3: a function to differentiate, one
    layer and its loss *)

Module AutodiffBasics.
Import torch Py Calls.

(** <<
    def f(x):
        y = torch.log(x[0]) + torch.sin(x[1])
        return x[2] * torch.exp(y)
    >> *)
Definition f : def := mkDef "f" ["x"]
  [ Assign "y"
      (tensor_value
         (TensorCalls.add
            (TensorCalls.log (TensorCalls.getitem (load_tensor "x") 0))
            (TensorCalls.sin (TensorCalls.getitem (load_tensor "x") 1))));
    Return
      (tensor_value
         (TensorCalls.mul
            (TensorCalls.getitem (load_tensor "x") 2)
            (TensorCalls.exp (load_tensor "y")))) ].

(** <<
    def run_layer(weights, inputs):
        outputs = torch.mm(weights, inputs)
        outputs = torch.tanh(outputs)
        return outputs
    >> *)
Definition run_layer : def := mkDef "run_layer" ["weights"; "inputs"]
  [ Assign "outputs"
      (tensor_value (TensorCalls.mm (load_tensor "weights") (load_tensor "inputs")));
    Assign "outputs" (tensor_value (TensorCalls.tanh (load_tensor "outputs")));
    Return (load "outputs") ].

(** <<
    def loss(outputs, targets):
        return torch.mean((outputs - targets)**2)
    >> *)
Definition loss : def := mkDef "loss" ["outputs"; "targets"]
  [ Return
      (tensor_value
         (TensorCalls.mean
            (TensorCalls.pow
               (TensorCalls.sub (load_tensor "outputs") (load_tensor "targets")) 2))) ].

End AutodiffBasics.

(** ** The second notebook, part 4: the training loop as it stands *)

Module ClassifierTraining.
Import torch Py Calls.

(** <<
    def train(epoch):
        model.train()
        # TODO: write some code here
    >> *)
Definition train : def := mkDef "train" ["epoch"]
  [ Expr (Module_train (load "model")) ].

(** <<
    def test():
        model.eval()
        # TODO: write some code here
    >> *)
Definition test : def := mkDef "test" []
  [ Expr (Module_eval (load "model")) ].

Definition train_cell : list top := [ FunctionDef train; FunctionDef test ].

(** <<
    for epoch in range(1, 5):
        train(epoch)
        test()
    >> *)
Definition epochs : stmt :=
  For (bind_name "epoch") (range 1 5)
    [ Expr (e ← load "epoch"; call train [e]);
      Expr (call test []) ].

Definition epochs_cell : list top := [ Stmt epochs ].

End ClassifierTraining.

(** * Properties *)

Ltac simpl_state :=
  cbn [Py.set_locals Py.set_model Py.set_grad_enabled Py.assign_local Py.advance
       Py.locals Py.globals Py.model_obj Py.grad_enabled Py.rng].

Ltac simpl_state_all :=
  cbn [Py.set_locals Py.set_model Py.set_grad_enabled Py.assign_local Py.advance
       Py.locals Py.globals Py.model_obj Py.grad_enabled Py.rng] in *.

(** ** Running expressions and statements, one step at a time *)

Section Stepping.
Import Py.
Context {A B : Type}.

Lemma bind_run (m : M A) (k : A -> M B) (s : state) :
  (m ≫= k) s =
  match m s with
  | (Ok a, s') => k a s'
  | (Raise e, s') => (Raise e, s')
  end.
Proof. reflexivity. Qed.

End Stepping.

Section Statements.
Import Py.

Lemma exec_suite_cons st b s :
  exec_suite (st :: b) s =
  match exec st s with
  | Normal s' => exec_suite b s'
  | o => o
  end.
Proof. reflexivity. Qed.

Lemma exec_Assign x e s :
  exec (Assign x e) s =
  match e s with
  | (Ok v, s') => Normal (assign_local x v s')
  | (Raise err, s') => Raised err s'
  end.
Proof. reflexivity. Qed.

Lemma exec_Expr e s :
  exec (Expr e) s =
  match e s with
  | (Ok _, s') => Normal s'
  | (Raise err, s') => Raised err s'
  end.
Proof. reflexivity. Qed.

Lemma exec_Return e s :
  exec (Return e) s =
  match e s with
  | (Ok v, s') => Returned v s'
  | (Raise err, s') => Raised err s'
  end.
Proof. reflexivity. Qed.

Lemma exec_For bind iter body s :
  exec (For bind iter body) s =
  match iter s with
  | (Ok items, s') => for_loop bind (exec_suite body) items s'
  | (Raise err, s') => Raised err s'
  end.
Proof. reflexivity. Qed.

Lemma exec_With enter body s :
  exec (With enter body) s =
  match enter s with
  | (Ok leave, s') =>
      match exec_suite body s' with
      | Normal s2 => Normal (leave s2)
      | Returned v s2 => Returned v (leave s2)
      | Raised err s2 => Raised err (leave s2)
      end
  | (Raise err, s') => Raised err s'
  end.
Proof. reflexivity. Qed.

Lemma load_local s x v : locals s !! x = Some v -> load x s = (Ok v, s).
Proof. intros H. unfold load. now rewrite H. Qed.

Lemma load_global s x :
  locals s !! x = None ->
  load x s = (match globals s !! x with Some v => Ok v | None => Raise (NameError x) end, s).
Proof. intros H. unfold load. rewrite H. now destruct (globals s !! x). Qed.

Lemma load_tensor_local s x t :
  locals s !! x = Some (VTensor t) -> load_tensor x s = (Ok t, s).
Proof.
  intros H. unfold load_tensor. rewrite bind_run, (load_local _ _ _ H). reflexivity.
Qed.

Lemma getattr_self s a :
  locals s !! "self" = Some VModel ->
  getattr (load "self") a s = (nn.get_layer (model_obj s) a, s).
Proof.
  intros H. unfold getattr. rewrite bind_run, (load_local _ _ _ H). reflexivity.
Qed.

(** [self.a(x)] for a local tensor [x]: the attribute is read first. *)
Lemma call_layer_local s a x t :
  locals s !! "self" = Some VModel ->
  locals s !! x = Some (VTensor t) ->
  call_layer (getattr (load "self") a) (load_tensor x) s =
  (l ← nn.get_layer (model_obj s) a; nn.layer_call l t, s).
Proof.
  intros Hs Hx. unfold call_layer. rewrite bind_run, (getattr_self _ _ Hs).
  destruct (nn.get_layer (model_obj s) a) as [l|e]; [|reflexivity].
  rewrite bind_run, (load_tensor_local _ _ _ Hx). reflexivity.
Qed.

(** A function whose suite is empty cannot be called, whatever the
    arguments and the state. *)
Lemma call_empty_suite d args s :
  def_body d = [] -> call d args s = (Raise IndentationError, s).
Proof. intros H. unfold call, def_ok. now rewrite H. Qed.

End Statements.

(** ** Shapes of the framework functions *)

Section Shapes.
Import torch.

Lemma numel_app (a b : list nat) : numel (a ++ b) = numel a * numel b.
Proof.
  induction a as [|n a IH]; simpl.
  - lia.
  - rewrite IH. lia.
Qed.

Lemma length_flat_map_const {A B} (f : A -> list B) (k : nat) (l : list A) :
  (forall a, length (f a) = k) -> length (flat_map f l) = length l * k.
Proof.
  intros Hf. induction l as [|a l IH]; simpl.
  - reflexivity.
  - rewrite length_app, Hf, IH. reflexivity.
Qed.

Lemma shape_eqb_refl (s : list nat) : shape_eqb s s = true.
Proof. unfold shape_eqb. now apply bool_decide_eq_true. Qed.

Lemma shape_eqb_eq (s1 s2 : list nat) : shape_eqb s1 s2 = true -> s1 = s2.
Proof. unfold shape_eqb. apply bool_decide_eq_true. Qed.

(** [F.linear] maps [lead ++ [i]] to [lead ++ [o]]. *)
Lemma linear_shape (x w b : Tensor) (lead : list nat) (i o : nat) :
  shape w = [o; i] -> shape b = [o] -> shape x = lead ++ [i] ->
  exists y, F.linear x w b = Ok y /\ shape y = lead ++ [o] /\ well_formed y.
Proof.
  intros Hw Hb Hx. unfold F.linear.
  rewrite Hw, Hx, rev_app_distr, Hb. cbn [rev app].
  rewrite Nat.eqb_refl, shape_eqb_refl. cbn [andb].
  eexists. split; [reflexivity|]. rewrite rev_involutive. split; [reflexivity|].
  unfold well_formed. cbn [data shape].
  rewrite numel_app, (length_flat_map_const _ o).
  - rewrite length_seq. simpl. lia.
  - intros r. now rewrite length_map, length_seq.
Qed.

(** ... and accepts no other input. *)
Lemma linear_accepts (x w b y : Tensor) (i o : nat) :
  shape w = [o; i] -> F.linear x w b = Ok y ->
  exists lead, shape x = lead ++ [i] /\ shape y = lead ++ [o].
Proof.
  intros Hw. unfold F.linear. rewrite Hw.
  destruct (rev (shape x)) as [|k lead] eqn:Hr; [discriminate|].
  destruct ((k =? i) && shape_eqb (shape b) [o]) eqn:Hc; [|discriminate].
  intros [= <-]. apply andb_true_iff in Hc as [Hk _]. apply Nat.eqb_eq in Hk. subst k.
  exists (rev lead). split; [|reflexivity].
  rewrite <- (rev_involutive (shape x)), Hr. reflexivity.
Qed.

Lemma nth_flat_map_const {A B} (f : A -> list B) (k : nat) (l : list A) (r j : nat)
    (a0 : A) (d : B) :
  (forall a, length (f a) = k) -> r < length l -> j < k ->
  nth (r * k + j) (flat_map f l) d = nth j (f (nth r l a0)) d.
Proof.
  intros Hf. revert r. induction l as [|a l IH]; intros r Hr Hj; cbn [length] in Hr.
  - lia.
  - cbn [flat_map]. destruct r as [|r].
    + cbn [Nat.mul Nat.add nth]. rewrite app_nth1 by (rewrite Hf; lia). reflexivity.
    + rewrite app_nth2 by (rewrite Hf; lia). rewrite Hf.
      replace (S r * k + j - k) with (r * k + j) by lia.
      cbn [nth]. apply IH; lia.
Qed.

(** Every element of the output of [F.linear] is the dot product of a row of
    the input with a row of the weight, plus the bias: row [r], column [j]. *)
Lemma linear_item (x w b y : Tensor) (lead : list nat) (i o r j : nat) :
  shape w = [o; i] -> shape x = lead ++ [i] -> F.linear x w b = Ok y ->
  r < numel lead -> j < o ->
  item y (r * o + j)
  = (sum_over i (fun c => item x (r * i + c) * item w (j * i + c)) + item b j)%R.
Proof.
  intros Hw Hx. unfold F.linear. rewrite Hw, Hx, rev_app_distr. cbn [rev app].
  destruct ((i =? i) && shape_eqb (shape b) [o]); [|discriminate].
  intros [= <-] Hr Hj. unfold item at 1. cbn [data].
  rewrite rev_involutive.
  rewrite (nth_flat_map_const _ o _ r j 0 0%R).
  - rewrite seq_nth by assumption. cbn [Nat.add].
    rewrite (nth_indep _ 0%R
               (sum_over i (fun c => item x (r * i + c) * item w (0 * i + c)) + item b 0)%R)
      by (now rewrite length_map, length_seq).
    rewrite (map_nth (fun j0 =>
               (sum_over i (fun c => item x (r * i + c) * item w (j0 * i + c))
                + item b j0)%R)).
    now rewrite seq_nth.
  - intros a. now rewrite length_map, length_seq.
  - now rewrite length_seq.
  - assumption.
Qed.

Lemma conv2d_shape (x w b : Tensor) (n c h wd o k : nat) :
  shape x = [n; c; h; wd] -> shape w = [o; c; k; k] -> shape b = [o] ->
  1 <= k -> k <= h -> k <= wd ->
  exists y, F.conv2d x w b = Ok y
            /\ shape y = [n; o; h - k + 1; wd - k + 1] /\ well_formed y.
Proof.
  intros Hx Hw Hb Hk Hh Hwd. unfold F.conv2d. rewrite Hx, Hw, Hb.
  rewrite Nat.eqb_refl, shape_eqb_refl.
  rewrite (proj2 (Nat.leb_le 1 k) Hk), (proj2 (Nat.leb_le k h) Hh),
    (proj2 (Nat.leb_le k wd) Hwd).
  cbn [andb]. eexists. split; [reflexivity|]. split; [reflexivity|].
  unfold well_formed. cbn [data shape numel fold_right].
  rewrite (length_flat_map_const _ (o * ((h - k + 1) * ((wd - k + 1) * 1)))).
  - now rewrite length_seq.
  - intros bi. rewrite (length_flat_map_const _ ((h - k + 1) * ((wd - k + 1) * 1))).
    + now rewrite length_seq.
    + intros f. rewrite (length_flat_map_const _ ((wd - k + 1) * 1)).
      * now rewrite length_seq.
      * intros yy. rewrite length_map, length_seq. lia.
Qed.

Lemma max_pool2d_shape (x : Tensor) (n c h wd k : nat) :
  shape x = [n; c; h; wd] -> 1 <= k -> k <= h -> k <= wd ->
  exists y, F.max_pool2d x k = Ok y
            /\ shape y = [n; c; (h - k) / k + 1; (wd - k) / k + 1] /\ well_formed y.
Proof.
  intros Hx Hk Hh Hwd. unfold F.max_pool2d. rewrite Hx.
  rewrite (proj2 (Nat.leb_le 1 k) Hk), (proj2 (Nat.leb_le k h) Hh),
    (proj2 (Nat.leb_le k wd) Hwd).
  cbn [andb]. eexists. split; [reflexivity|]. split; [reflexivity|].
  unfold well_formed. cbn [data shape numel fold_right].
  rewrite (length_flat_map_const _ (c * (((h - k) / k + 1) * (((wd - k) / k + 1) * 1)))).
  - now rewrite length_seq.
  - intros bi.
    rewrite (length_flat_map_const _ (((h - k) / k + 1) * (((wd - k) / k + 1) * 1))).
    + now rewrite length_seq.
    + intros f. rewrite (length_flat_map_const _ (((wd - k) / k + 1) * 1)).
      * now rewrite length_seq.
      * intros yy. rewrite length_map, length_seq. lia.
Qed.

Lemma view_rows_shape (x : Tensor) (rows cols : nat) :
  0 < cols -> numel (shape x) = rows * cols ->
  exists y, view_rows x cols = Ok y /\ shape y = [rows; cols] /\ data y = data x.
Proof.
  intros Hc Hn. unfold view_rows. rewrite Hn.
  rewrite (proj2 (Nat.ltb_lt 0 cols) Hc), Nat.Div0.mod_mul, Nat.div_mul by lia.
  cbn [andb Nat.eqb]. eexists. split; [reflexivity|]. split; reflexivity.
Qed.

Lemma relu_shape (x : Tensor) : shape (F.relu x) = shape x.
Proof. reflexivity. Qed.

Lemma relu_well_formed (x : Tensor) : well_formed x -> well_formed (F.relu x).
Proof. unfold well_formed, F.relu. cbn [data shape]. now rewrite length_map. Qed.

Lemma sigmoid_shape (x : Tensor) : shape (sigmoid x) = shape x.
Proof. reflexivity. Qed.

Lemma dropout_shape (x : Tensor) (t : bool) (u : nat -> R) :
  shape (F.dropout x t u) = shape x.
Proof. now destruct t. Qed.

Lemma dropout_well_formed (x : Tensor) (t : bool) (u : nat -> R) :
  well_formed x -> well_formed (F.dropout x t u).
Proof.
  destruct t; [|trivial]. unfold well_formed, F.dropout. cbn [data shape].
  now rewrite length_map, length_seq.
Qed.

(** A registered layer of the expected kind and shapes. *)
Lemma has_linear_get (m : nn.module) (name : string) (i o : nat) :
  nn.has_linear m name i o = true ->
  exists i' o' w b, nn.get_layer m name = Ok (nn.Linear_layer i' o' w b)
                    /\ shape w = [o; i] /\ shape b = [o].
Proof.
  unfold nn.has_linear, nn.get_layer.
  destruct (nn._modules m !! name) as [[i' o' w b|]|]; try discriminate.
  intros H. apply andb_true_iff in H as [Hw Hb].
  exists i', o', w, b. split; [reflexivity|].
  split; now apply shape_eqb_eq.
Qed.

Lemma has_conv2d_get (m : nn.module) (name : string) (c o k : nat) :
  nn.has_conv2d m name c o k = true ->
  exists c' o' k' w b, nn.get_layer m name = Ok (nn.Conv2d_layer c' o' k' w b)
                       /\ shape w = [o; c; k; k] /\ shape b = [o].
Proof.
  unfold nn.has_conv2d, nn.get_layer.
  destruct (nn._modules m !! name) as [[|c' o' k' w b]|]; try discriminate.
  intros H. apply andb_true_iff in H as [Hw Hb].
  exists c', o', k', w, b. split; [reflexivity|].
  split; now apply shape_eqb_eq.
Qed.

End Shapes.

(** ** The framework functions on small inputs *)

Section Examples.
Import torch.
Open Scope R_scope.

Example linear_example :
  F.linear (mkTensor [1; 2]%nat [1; 2]) (mkTensor [1; 2]%nat [3; 4]) (mkTensor [1%nat] [5])
  = Ok (mkTensor [1; 1]%nat [16]).
Proof.
  unfold F.linear. cbn. unfold sum_over, item. cbn. do 3 f_equal. lra.
Qed.

Example linear_mismatch :
  F.linear (mkTensor [1; 3]%nat [1; 2; 3]) (mkTensor [1; 2]%nat [3; 4]) (mkTensor [1%nat] [5])
  = Raise (RuntimeError "mat1 and mat2 shapes cannot be multiplied").
Proof. reflexivity. Qed.

Example conv2d_example :
  F.conv2d (mkTensor [1; 1; 2; 2]%nat [1; 2; 3; 4]) (mkTensor [1; 1; 2; 2]%nat [1; 0; 0; 1])
    (mkTensor [1%nat] [10])
  = Ok (mkTensor [1; 1; 1; 1]%nat [15]).
Proof.
  unfold F.conv2d. cbn. unfold sum_over, item. cbn. do 3 f_equal. lra.
Qed.

Example max_pool2d_example :
  F.max_pool2d (mkTensor [1; 1; 2; 2]%nat [1; 4; 2; 3]) 2 = Ok (mkTensor [1; 1; 1; 1]%nat [4]).
Proof.
  unfold F.max_pool2d. cbn. unfold max_over, item. cbn. do 3 f_equal.
  unfold Rmax. repeat (destruct Rle_dec; try lra).
Qed.

Example relu_example :
  F.relu (mkTensor [2%nat] [-1; 2]) = mkTensor [2%nat] [0; 2].
Proof.
  unfold F.relu. cbn. f_equal. unfold Rmax. repeat (destruct Rle_dec; try lra).
  reflexivity.
Qed.

Example sigmoid_example : sigmoid (mkTensor [1%nat] [0]) = mkTensor [1%nat] [1 / 2].
Proof.
  unfold sigmoid. cbn. do 2 f_equal. rewrite Ropp_0, exp_0. lra.
Qed.

Example view_example :
  view_rows (mkTensor [2; 1; 2; 1]%nat [1; 2; 3; 4]) 2 = Ok (mkTensor [2; 2]%nat [1; 2; 3; 4]).
Proof. reflexivity. Qed.

Example view_mismatch :
  view_rows (mkTensor [3%nat] [1; 2; 3]) 2
  = Raise (RuntimeError "shape is invalid for input size").
Proof. reflexivity. Qed.

End Examples.

(** ** The methods of [VAE] that have a body *)

Section VAE_methods.
Import torch Py Calls BasicVAE.

(** [encode] reads three layers of the model and nothing else. *)
Lemma encode_unfold s x :
  call VAE.encode [VModel; VTensor x] s =
  (l1 ← nn.get_layer (model_obj s) "fc1";
   h ← nn.layer_call l1 x;
   l21 ← nn.get_layer (model_obj s) "fc21";
   mu ← nn.layer_call l21 (F.relu h);
   l22 ← nn.get_layer (model_obj s) "fc22";
   logvar ← nn.layer_call l22 (F.relu h);
   mret (VTuple [VTensor mu; VTensor logvar]), s).
Proof.
  destruct s as [l g m ge r].
  unfold call.
  change (def_ok VAE.encode) with true. cbv iota.
  change (bind_params (def_params VAE.encode) [VModel; VTensor x])
    with (Some (list_to_map [("self", VModel); ("x", VTensor x)] : gmap string value)).
  cbv iota. simpl def_body.
  rewrite exec_suite_cons, exec_Assign.
  unfold tensor_value at 1. unfold relu. rewrite !bind_run.
  rewrite call_layer_local with (t := x) by reflexivity.
  simpl_state.
  destruct (nn.get_layer m "fc1") as [l1|e]; [|reflexivity].
  cbn [mbind result_bind].
  destruct (nn.layer_call l1 x) as [h|e]; [|reflexivity].
  cbn [mbind result_bind mret M_ret].
  rewrite exec_suite_cons, exec_Return, !bind_run.
  rewrite call_layer_local with (t := F.relu h) by reflexivity.
  simpl_state.
  destruct (nn.get_layer m "fc21") as [l21|e]; [|reflexivity].
  cbn [mbind result_bind].
  destruct (nn.layer_call l21 (F.relu h)) as [mu|e]; [|reflexivity].
  rewrite !bind_run.
  rewrite call_layer_local with (t := F.relu h) by reflexivity.
  simpl_state.
  destruct (nn.get_layer m "fc22") as [l22|e]; [|reflexivity].
  cbn [mbind result_bind].
  destruct (nn.layer_call l22 (F.relu h)) as [lv|e]; reflexivity.
Qed.

Lemma decode_unfold s z :
  call VAE.decode [VModel; VTensor z] s =
  (l3 ← nn.get_layer (model_obj s) "fc3";
   h ← nn.layer_call l3 z;
   l4 ← nn.get_layer (model_obj s) "fc4";
   y ← nn.layer_call l4 (F.relu h);
   mret (VTensor (torch.sigmoid y)), s).
Proof.
  destruct s as [l g m ge r].
  unfold call.
  change (def_ok VAE.decode) with true. cbv iota.
  change (bind_params (def_params VAE.decode) [VModel; VTensor z])
    with (Some (list_to_map [("self", VModel); ("z", VTensor z)] : gmap string value)).
  cbv iota. simpl def_body.
  rewrite exec_suite_cons, exec_Assign.
  unfold tensor_value at 1. unfold relu. rewrite !bind_run.
  rewrite call_layer_local with (t := z) by reflexivity.
  simpl_state.
  destruct (nn.get_layer m "fc3") as [l3|e]; [|reflexivity].
  cbn [mbind result_bind].
  destruct (nn.layer_call l3 z) as [h|e]; [|reflexivity].
  cbn [mbind result_bind mret M_ret].
  rewrite exec_suite_cons, exec_Return.
  unfold tensor_value, Calls.sigmoid. rewrite !bind_run.
  rewrite call_layer_local with (t := F.relu h) by reflexivity.
  simpl_state.
  destruct (nn.get_layer m "fc4") as [l4|e]; [|reflexivity].
  cbn [mbind result_bind].
  destruct (nn.layer_call l4 (F.relu h)) as [y|e]; reflexivity.
Qed.

(** [forward] reads three global names and nothing else. *)
Lemma forward_unfold (s : state) (a b : value) :
  call VAE.forward [a; b] s =
  (recon ← match globals s !! "recon" with
           | Some v => Ok v
           | None => Raise (NameError "recon")
           end;
   mu ← match globals s !! "mu" with
        | Some v => Ok v
        | None => Raise (NameError "mu")
        end;
   logvar ← match globals s !! "logvar" with
            | Some v => Ok v
            | None => Raise (NameError "logvar")
            end;
   mret (VTuple [recon; mu; logvar]), s).
Proof.
  destruct s as [l g m ge r].
  unfold call.
  change (def_ok VAE.forward) with true. cbv iota.
  change (bind_params (def_params VAE.forward) [a; b])
    with (Some (list_to_map [("self", a); ("x", b)] : gmap string value)).
  cbv iota. simpl def_body.
  rewrite exec_suite_cons, exec_Return, bind_run.
  rewrite load_global by reflexivity. simpl_state.
  destruct (g !! "recon") as [v1|]; [|reflexivity].
  rewrite bind_run, load_global by reflexivity. simpl_state.
  destruct (g !! "mu") as [v2|]; [|reflexivity].
  rewrite bind_run, load_global by reflexivity. simpl_state.
  destruct (g !! "logvar") as [v3|]; reflexivity.
Qed.

(** No cell of the notebook binds [recon]. *)
Lemma notebook_globals_recon tb sb (g : gmap string value) :
  g ⊆ notebook_globals tb sb -> g !! "recon" = None.
Proof.
  intros Hsub. eapply lookup_weaken_None; [|exact Hsub]. reflexivity.
Qed.

(** [__init__] registers the five layers with the shapes of its text. *)
Lemma init_initialised s :
  initialised (model_obj (snd (call VAE.__init__ [VModel] s))) = true.
Proof. destruct s. reflexivity. Qed.

Lemma initialised_inv (m : nn.module) :
  initialised m = true ->
  nn.has_linear m "fc1" 784 400 = true /\ nn.has_linear m "fc21" 400 20 = true
  /\ nn.has_linear m "fc22" 400 20 = true /\ nn.has_linear m "fc3" 20 400 = true
  /\ nn.has_linear m "fc4" 400 784 = true.
Proof.
  unfold initialised. rewrite !andb_true_iff. tauto.
Qed.

(** [encode] accepts every input whose last dimension is 784 ... *)
Lemma encode_accepts (s : state) (x : Tensor) (lead : list nat) :
  initialised (model_obj s) = true ->
  shape x = lead ++ [784] ->
  exists mu logvar,
    call VAE.encode [VModel; VTensor x] s = (Ok (VTuple [VTensor mu; VTensor logvar]), s)
    /\ shape mu = lead ++ [20] /\ shape logvar = lead ++ [20]
    /\ well_formed mu /\ well_formed logvar.
Proof.
  intros Hi Hx. apply initialised_inv in Hi as (H1 & H21 & H22 & _ & _).
  apply has_linear_get in H1 as (i1 & o1 & w1 & b1 & G1 & Hw1 & Hb1).
  apply has_linear_get in H21 as (i21 & o21 & w21 & b21 & G21 & Hw21 & Hb21).
  apply has_linear_get in H22 as (i22 & o22 & w22 & b22 & G22 & Hw22 & Hb22).
  rewrite encode_unfold, G1, G21, G22. cbn [mbind result_bind nn.layer_call].
  destruct (linear_shape x w1 b1 lead 784 400 Hw1 Hb1 Hx) as (h & Hh & Hsh & _).
  rewrite Hh. cbn [mbind result_bind].
  destruct (linear_shape (F.relu h) w21 b21 lead 400 20 Hw21 Hb21 Hsh)
    as (mu & Hmu & Hsmu & Hwmu).
  destruct (linear_shape (F.relu h) w22 b22 lead 400 20 Hw22 Hb22 Hsh)
    as (lv & Hlv & Hslv & Hwlv).
  rewrite Hmu. cbn [mbind result_bind]. rewrite Hlv.
  exists mu, lv. repeat split; assumption.
Qed.

(** ... and no other. *)
Lemma encode_accepted (s : state) (x : Tensor) (v : value) :
  initialised (model_obj s) = true ->
  fst (call VAE.encode [VModel; VTensor x] s) = Ok v ->
  exists lead mu logvar,
    v = VTuple [VTensor mu; VTensor logvar]
    /\ shape x = lead ++ [784]
    /\ shape mu = lead ++ [20] /\ shape logvar = lead ++ [20].
Proof.
  intros Hi. apply initialised_inv in Hi as (H1 & H21 & H22 & _ & _).
  apply has_linear_get in H1 as (i1 & o1 & w1 & b1 & G1 & Hw1 & Hb1).
  apply has_linear_get in H21 as (i21 & o21 & w21 & b21 & G21 & Hw21 & Hb21).
  apply has_linear_get in H22 as (i22 & o22 & w22 & b22 & G22 & Hw22 & Hb22).
  rewrite encode_unfold, G1, G21, G22. cbn [mbind result_bind nn.layer_call fst].
  destruct (F.linear x w1 b1) as [h|e] eqn:Hh; [|discriminate].
  cbn [mbind result_bind].
  destruct (F.linear (F.relu h) w21 b21) as [mu|e] eqn:Hmu; [|discriminate].
  cbn [mbind result_bind].
  destruct (F.linear (F.relu h) w22 b22) as [lv|e] eqn:Hlv; [|discriminate].
  intros [= <-].
  destruct (linear_accepts _ _ _ _ _ _ Hw1 Hh) as (lead & Hx & Hsh).
  destruct (linear_accepts _ _ _ _ _ _ Hw21 Hmu) as (lead1 & Hr1 & Hsmu).
  destruct (linear_accepts _ _ _ _ _ _ Hw22 Hlv) as (lead2 & Hr2 & Hslv).
  rewrite relu_shape, Hsh in Hr1, Hr2.
  apply app_inj_tail in Hr1 as [<- _]. apply app_inj_tail in Hr2 as [<- _].
  exists lead, mu, lv. repeat split; assumption.
Qed.

(** [decode] maps a latent of shape [lead ++ [20]] to [lead ++ [784]]. *)
Lemma decode_accepts (s : state) (z : Tensor) (lead : list nat) :
  initialised (model_obj s) = true ->
  shape z = lead ++ [20] ->
  exists recon,
    call VAE.decode [VModel; VTensor z] s = (Ok (VTensor recon), s)
    /\ shape recon = lead ++ [784].
Proof.
  intros Hi Hz. apply initialised_inv in Hi as (_ & _ & _ & H3 & H4).
  apply has_linear_get in H3 as (i3 & o3 & w3 & b3 & G3 & Hw3 & Hb3).
  apply has_linear_get in H4 as (i4 & o4 & w4 & b4 & G4 & Hw4 & Hb4).
  rewrite decode_unfold, G3, G4. cbn [mbind result_bind nn.layer_call].
  destruct (linear_shape z w3 b3 lead 20 400 Hw3 Hb3 Hz) as (h & Hh & Hsh & _).
  rewrite Hh. cbn [mbind result_bind].
  destruct (linear_shape (F.relu h) w4 b4 lead 400 784 Hw4 Hb4 Hsh) as (y & Hy & Hsy & _).
  rewrite Hy. exists (torch.sigmoid y). split; [reflexivity|].
  now rewrite sigmoid_shape.
Qed.

End VAE_methods.

(** ** The first notebook: what [encode] and [decode] guarantee *)

Section VAE_claims.
Import torch Py Calls BasicVAE.

(** C7.  For every input that [VAE.encode] accepts, the two tensors it
    returns (posterior mean and posterior log-variance) have the same shape,
    and their last dimension is 20, the output size of [fc21] and [fc22]:
    [encode] accepts exactly the inputs of shape [lead ++ [784]] and returns
    two tensors of shape [lead ++ [20]]. *)
Theorem encode_latent_dimension (s : state) (x : Tensor) :
  initialised (model_obj s) = true ->
  (forall lead, shape x = lead ++ [784] ->
     exists mu logvar,
       call VAE.encode [VModel; VTensor x] s = (Ok (VTuple [VTensor mu; VTensor logvar]), s)
       /\ shape mu = lead ++ [20] /\ shape logvar = lead ++ [20]
       /\ well_formed mu /\ well_formed logvar)
  /\ (forall v, fst (call VAE.encode [VModel; VTensor x] s) = Ok v ->
        exists lead mu logvar,
          v = VTuple [VTensor mu; VTensor logvar]
          /\ shape x = lead ++ [784]
          /\ shape mu = lead ++ [20] /\ shape logvar = lead ++ [20]).
Proof.
  intros Hi. split.
  - intros lead Hx. now apply encode_accepts.
  - intros v Hv. exact (encode_accepted s x v Hi Hv).
Qed.

Lemma encode_latent_dimension_witness :
  initialised (model_obj started) = true
  /\ exists mu logvar,
       call VAE.encode [VModel; VTensor (zeros [3; 784])] started
         = (Ok (VTuple [VTensor mu; VTensor logvar]), started)
       /\ shape mu = [3; 20] /\ shape logvar = [3; 20].
Proof.
  split; [reflexivity|].
  destruct (encode_latent_dimension started (zeros [3; 784]) eq_refl) as [Hacc _].
  destruct (Hacc [3] eq_refl) as (mu & logvar & Hcall & Hmu & Hlv & _).
  exists mu, logvar. split; [exact Hcall|]. split; assumption.
Defined.

(** C6.  [VAE.encode] and [VAE.decode] are deterministic given the
    parameters: in any two states of the interpreter that hold the same
    weight and bias tensors (whatever the training flag, the autograd mode,
    the random generator and the namespaces), [encode] on the same input
    returns the same pair (or raises the same error), and so does [decode] on the
    same latent; neither changes the state, so a second run sees the same
    parameters. *)
Theorem encode_decode_deterministic (s1 s2 : state) (x z : Tensor) :
  parameters s1 = parameters s2 ->
  fst (call VAE.encode [VModel; VTensor x] s1) = fst (call VAE.encode [VModel; VTensor x] s2)
  /\ fst (call VAE.decode [VModel; VTensor z] s1) = fst (call VAE.decode [VModel; VTensor z] s2)
  /\ snd (call VAE.encode [VModel; VTensor x] s1) = s1
  /\ snd (call VAE.decode [VModel; VTensor z] s1) = s1.
Proof.
  intros Hp. rewrite !encode_unfold, !decode_unfold. cbn [fst snd].
  unfold nn.get_layer. unfold parameters in Hp. rewrite Hp.
  repeat split.
Qed.

Lemma encode_decode_deterministic_witness :
  parameters started = parameters evaluating
  /\ fst (call VAE.encode [VModel; VTensor (zeros [1; 784])] started)
     = fst (call VAE.encode [VModel; VTensor (zeros [1; 784])] evaluating)
  /\ fst (call VAE.decode [VModel; VTensor (zeros [1; 20])] started)
     = fst (call VAE.decode [VModel; VTensor (zeros [1; 20])] evaluating).
Proof.
  assert (Hp : parameters started = parameters evaluating).
  { unfold evaluating. unfold parameters at 2. cbn [model_obj nn._modules]. reflexivity. }
  split; [exact Hp|].
  destruct (encode_decode_deterministic started evaluating
              (zeros [1; 784]) (zeros [1; 20]) Hp) as (He & Hd & _ & _).
  split; assumption.
Defined.

(** C3 (as amended).  [VAE.forward] returns no reconstruction: its one
    statement reads the unbound name [recon] and raises.  The shape fact
    holds for the methods that have a body: for an input of shape
    [lead ++ [784]], [encode] returns a mean and a log-variance, both of
    shape [lead ++ [20]], and [decode] maps every latent of that shape to a
    tensor of the shape of the input. *)
Theorem decode_restores_input_shape (s : state) (x : Tensor) (lead : list nat) :
  initialised (model_obj s) = true ->
  globals s !! "recon" = None ->
  shape x = lead ++ [784] ->
  fst (call VAE.forward [VModel; VTensor x] s) = Raise (NameError "recon")
  /\ exists mu logvar,
       call VAE.encode [VModel; VTensor x] s = (Ok (VTuple [VTensor mu; VTensor logvar]), s)
       /\ shape mu = lead ++ [20] /\ shape logvar = lead ++ [20]
       /\ forall z, shape z = shape mu ->
            exists recon,
              call VAE.decode [VModel; VTensor z] s = (Ok (VTensor recon), s)
              /\ shape recon = shape x.
Proof.
  intros Hi Hg Hx. split.
  { rewrite forward_unfold, Hg. reflexivity. }
  destruct (encode_accepts s x lead Hi Hx) as (mu & logvar & Hcall & Hmu & Hlv & _).
  exists mu, logvar. split; [exact Hcall|]. split; [exact Hmu|]. split; [exact Hlv|].
  intros z Hz. rewrite Hmu in Hz.
  destruct (decode_accepts s z lead Hi Hz) as (recon & Hdec & Hrecon).
  exists recon. split; [exact Hdec|]. now rewrite Hrecon, Hx.
Qed.

Lemma decode_restores_input_shape_witness :
  initialised (model_obj started) = true
  /\ globals started !! "recon" = None
  /\ shape (zeros [784]) = [] ++ [784]
  /\ fst (call VAE.forward [VModel; VTensor (zeros [784])] started)
     = Raise (NameError "recon")
  /\ exists recon,
       call VAE.decode [VModel; VTensor (zeros [20])] started = (Ok (VTensor recon), started)
       /\ shape recon = [784].
Proof.
  split; [reflexivity|]. split; [reflexivity|]. split; [reflexivity|].
  destruct (decode_restores_input_shape started (zeros [784]) [] eq_refl eq_refl eq_refl)
    as (Hfwd & mu & logvar & _ & Hmu & _ & Hdec).
  split; [exact Hfwd|].
  destruct (Hdec (zeros [20])) as (recon & Hcall & Hshape).
  - now rewrite Hmu.
  - exists recon. split; assumption.
Defined.

(** C3, the claim as stated, fails: on the input [zeros [784]], in the
    session where the model has been built, [forward] returns no triple
    whose first component is a tensor of shape [784]. *)
Lemma forward_shape_counterexample :
  ~ exists recon mu logvar,
      fst (call VAE.forward [VModel; VTensor (zeros [784])] started)
        = Ok (VTuple [VTensor recon; mu; logvar])
      /\ shape recon = [784].
Proof.
  intros (recon & mu & logvar & H & _).
  rewrite forward_unfold in H. discriminate H.
Qed.

(** C10.  [VAE.forward] never returns normally.  The suite of
    [reparameterize] holds no statement, so the cell that defines the class
    is rejected with an [IndentationError]; and the only statement of
    [forward] returns the names [recon], [mu], [logvar], which nothing binds:
    in every state whose global names are among those the notebook binds,
    a call of [forward] with a [self] and an input raises
    [NameError: recon], and a call with any arguments whatever returns no
    value. *)
Theorem forward_never_returns (s : state) (args : list value)
    (train_batches test_batches : list (Tensor * Tensor)) :
  globals s ⊆ notebook_globals train_batches test_batches ->
  compile_cell VAE_cell = Raise IndentationError
  /\ def_body VAE.reparameterize = []
  /\ (forall v, fst (call VAE.forward args s) <> Ok v)
  /\ (forall self x, call VAE.forward [self; x] s = (Raise (NameError "recon"), s)).
Proof.
  intros Hg. apply notebook_globals_recon in Hg.
  assert (Hf : forall a b, call VAE.forward [a; b] s = (Raise (NameError "recon"), s)).
  { intros a b. rewrite forward_unfold, Hg. reflexivity. }
  split; [reflexivity|]. split; [reflexivity|]. split; [|exact Hf].
  intros v. destruct args as [|a [|b [|c rest]]].
  - unfold call. cbn. discriminate.
  - unfold call. cbn. discriminate.
  - rewrite Hf. discriminate.
  - unfold call. cbn. discriminate.
Qed.

Lemma forward_never_returns_witness :
  globals started ⊆ notebook_globals [] []
  /\ call VAE.forward [VModel; VTensor (zeros [784])] started
     = (Raise (NameError "recon"), started).
Proof.
  assert (Hg : globals started ⊆ notebook_globals [] []) by reflexivity.
  split; [exact Hg|].
  destruct (forward_never_returns started [VModel; VTensor (zeros [784])] [] [] Hg)
    as (_ & _ & _ & Hcall).
  apply Hcall.
Defined.

End VAE_claims.

(** ** The first notebook: the functions left as exercises *)

Section VAE_placeholders.
Import torch Py Calls BasicVAE.

(** C1 (as amended).  [VAE.reparameterize] is a placeholder: its suite
    holds only the TODO comment, so for every state and all arguments the
    call raises [IndentationError], changes nothing and returns no sample.
    The value mu + exp(0.5·logvar)·eps is what the comment asks the reader
    to write, not what the code returns. *)
Theorem reparameterize_is_placeholder (s : state) (args : list value) :
  call VAE.reparameterize args s = (Raise IndentationError, s).
Proof. now apply call_empty_suite. Qed.

(** C1, the claim as stated, fails: for mu = logvar = eps = zeros [20] the
    call does not return the tensor of the formula. *)
Lemma reparameterize_formula_counterexample :
  fst (call VAE.reparameterize [VModel; VTensor (zeros [20]); VTensor (zeros [20])] started)
  <> Ok (VTensor (reparameterize_spec (zeros [20]) (zeros [20]) (zeros [20]))).
Proof. rewrite call_empty_suite by reflexivity. discriminate. Qed.

(** C2 (as amended).  [loss_function] is a placeholder: its suite holds
    only comments, so its cell is rejected and for every state and all
    arguments the call raises [IndentationError] and returns no loss. *)
Theorem loss_function_is_placeholder (s : state) (args : list value) :
  call loss_function args s = (Raise IndentationError, s)
  /\ compile_cell loss_cell = Raise IndentationError.
Proof. split; [now apply call_empty_suite | reflexivity]. Qed.

(** C2, the claim as stated, fails: for a batch of one all-zero image the
    call returns no value at all. *)
Lemma loss_function_counterexample :
  ~ exists v,
      fst (call loss_function
             [VTensor (zeros [1; 784]); VTensor (zeros [1; 784]);
              VTensor (zeros [1; 20]); VTensor (zeros [1; 20])] started) = Ok v.
Proof. intros [v H]. rewrite call_empty_suite in H by reflexivity. discriminate. Qed.

Lemma sum_over_zero (n : nat) (f : nat -> R) :
  (forall j, f j = 0%R) -> sum_over n f = 0%R.
Proof.
  intros Hf. unfold sum_over. induction (seq 0 n) as [|k l IH]; cbn [fold_right].
  - reflexivity.
  - rewrite Hf, IH. lra.
Qed.

Lemma nth_all_zero (l : list R) (j : nat) :
  Forall (fun v => v = 0%R) l -> nth j l 0%R = 0%R.
Proof.
  intros H. revert j. induction H as [|v l Hv _ IH]; intros [|j]; cbn [nth]; auto.
Qed.

Lemma map_nth_seq (l : list R) (d : R) :
  map (fun k => nth k l d) (seq 0 (length l)) = l.
Proof.
  induction l as [|a l IH]; [reflexivity|].
  cbn [length seq map nth]. f_equal.
  rewrite <- seq_shift, map_map. exact IH.
Qed.

(** C5 (as amended).  When the noise is the zero vector, the sample of the
    reparameterization formula, mu + exp(½·logvar)·eps elementwise, is mu
    itself.  [VAE.reparameterize] does not compute it: the method has no
    body and the call raises. *)
Theorem reparameterize_spec_zero_noise (mu logvar eps : Tensor) :
  Forall (fun e => e = 0%R) (data eps) ->
  reparameterize_spec mu logvar eps = mu
  /\ forall s, fst (call VAE.reparameterize [VModel; VTensor mu; VTensor logvar] s)
               = Raise IndentationError.
Proof.
  intros Hz. split.
  - unfold reparameterize_spec. destruct mu as [sh d]. cbn [shape data]. f_equal.
    rewrite <- (map_nth_seq d 0%R) at 2. apply map_ext. intros k.
    unfold item at 3. rewrite (nth_all_zero _ _ Hz). unfold item. cbn [data]. lra.
  - intros s. now rewrite call_empty_suite.
Qed.

Lemma reparameterize_spec_zero_noise_witness :
  Forall (fun e => e = 0%R) (data (zeros [2]))
  /\ reparameterize_spec (mkTensor [2] [1; 2]%R) (mkTensor [2] [3; 4]%R) (zeros [2])
     = mkTensor [2] [1; 2]%R.
Proof.
  assert (Hz : Forall (fun e => e = 0%R) (data (zeros [2]))).
  { cbn. repeat constructor. }
  split; [exact Hz|].
  apply (reparameterize_spec_zero_noise (mkTensor [2] [1; 2]%R) (mkTensor [2] [3; 4]%R)
           (zeros [2]) Hz).
Defined.

(** C5, the claim as stated, fails: with zero noise and mu = (1, ..., 1)
    the call does not return mu. *)
Lemma reparameterize_zero_noise_counterexample :
  fst (call VAE.reparameterize
         [VModel; VTensor (full [20] 1%R); VTensor (zeros [20])] started)
  <> Ok (VTensor (full [20] 1%R)).
Proof. rewrite call_empty_suite by reflexivity. discriminate. Qed.

(** C4.  When the approximate posterior equals the standard-normal prior,
    that is, every mean and every log-variance is 0, the closed-form KL term
    -½·Σ_j(1 + logvar_j − exp(logvar_j) − mu_j²) is exactly zero. *)
Theorem KL_term_zero_at_prior (mu logvar : list R) :
  Forall (fun m => m = 0%R) mu -> Forall (fun l => l = 0%R) logvar ->
  KL_term mu logvar = 0%R.
Proof.
  intros Hmu Hlv. unfold KL_term.
  rewrite sum_over_zero; [lra|].
  intros j. rewrite !nth_all_zero by assumption. rewrite exp_0. lra.
Qed.

Lemma KL_term_zero_at_prior_witness :
  Forall (fun m => m = 0%R) [0; 0; 0]%R /\ Forall (fun l => l = 0%R) [0; 0; 0]%R
  /\ KL_term [0; 0; 0]%R [0; 0; 0]%R = 0%R.
Proof.
  assert (Hz : Forall (fun m => m = 0%R) [0; 0; 0]%R) by (repeat constructor).
  split; [exact Hz|]. split; [exact Hz|].
  apply (KL_term_zero_at_prior [0; 0; 0]%R [0; 0; 0]%R Hz Hz).
Defined.

(** Away from the prior the term is not zero: mean 1, log-variance 0. *)
Example KL_term_example : KL_term [1%R] [0%R] = (1 / 2)%R.
Proof.
  unfold KL_term, sum_over. cbn. rewrite exp_0. lra.
Qed.

End VAE_placeholders.

(** ** The first notebook: the evaluation function *)

Section VAE_test.
Import torch Py Calls BasicVAE.

Lemma unpack_only_locals (i data ignored : string) (v : value) (s : state) :
  exists l, snd (unpack_index_data i data ignored v s) = set_locals l s.
Proof.
  unfold unpack_index_data, raise.
  repeat match goal with
         | |- context [match ?x with _ => _ end] => destruct x
         end;
    cbn [snd]; try (exists (locals s); now destruct s).
  eexists. unfold assign_local, set_locals. cbn [locals globals model_obj grad_enabled rng].
  reflexivity.
Qed.

(** A [for] loop whose suite does nothing only rebinds its targets. *)
Lemma for_loop_empty_suite (i data ignored : string) (run : state -> outcome) :
  (forall s, run s = Normal s) ->
  forall (items : list value) (s : state),
  exists l, state_of (for_loop (unpack_index_data i data ignored) run items s)
            = set_locals l s.
Proof.
  intros Hrun items. induction items as [|v items IH]; intros s; cbn [for_loop].
  - exists (locals s). now destruct s.
  - destruct (unpack_only_locals i data ignored v s) as [l1 Hl1].
    destruct (unpack_index_data i data ignored v s) as [[[]|e] s1]; cbn [snd] in Hl1; subst s1.
    + rewrite Hrun. destruct (IH (set_locals l1 s)) as [l Hl].
      exists l. rewrite Hl. reflexivity.
    + now exists l1.
Qed.

(** Running the statements of [test] changes at most the frame and the
    [training] flag of the model. *)
Lemma test_body_effect (epoch : Z) (s : state) :
  exists l t,
    state_of (exec_suite (def_body test) (set_locals {[ "epoch" := VInt epoch ]} s))
    = set_locals l (set_model (nn.mkModule (nn._modules (model_obj s)) t) s).
Proof.
  destruct s as [l g [ms tr] ge r]. simpl def_body.
  rewrite exec_suite_cons, exec_Expr.
  unfold Module_eval, set_training. rewrite bind_run.
  rewrite load_global by reflexivity. simpl_state.
  destruct (g !! "model") as [v|]; [|eexists _, tr; reflexivity].
  destruct v; try (eexists _, tr; reflexivity).
  simpl_state.
  rewrite exec_suite_cons, exec_Assign. cbn [mret M_ret]. simpl_state.
  rewrite exec_suite_cons, exec_With. unfold no_grad at 1. simpl_state.
  rewrite exec_suite_cons, exec_For. unfold enumerate. rewrite bind_run.
  rewrite load_global by reflexivity. simpl_state.
  destruct (g !! "test_loader") as [v|]; [|eexists _, false; reflexivity].
  destruct v; try (eexists _, false; reflexivity).
  cbn [mret M_ret].
  match goal with |- context [for_loop ?b ?r ?items ?s0] =>
    destruct (for_loop_empty_suite "i" "data" "_" r (fun s => eq_refl) items s0) as [l' Hl'];
    destruct (for_loop b r items s0) as [s2|v s2|e s2]; cbn [state_of] in Hl'; subst s2
  end; exists l', false; reflexivity.
Qed.

(** C8.  [test(epoch)] leaves every weight and bias tensor of the model
    unchanged and tracks no gradient.  As the notebook stands the suite of
    its [for] loop is empty, so the cell is rejected and the call ends in
    [IndentationError] with the whole state as it was.  The statements that
    are there do not touch the parameters either: run as they stand, for any
    batches in the loader, they end in a state with the same parameters and
    the same autograd mode; and the loop is run inside [torch.no_grad()],
    that is, from a state with autograd disabled, the mode being restored
    afterwards. *)
Theorem test_leaves_parameters_unchanged (epoch : Z) (s : state) :
  call test [VInt epoch] s = (Raise IndentationError, s)
  /\ compile_cell train_cell = Raise IndentationError
  /\ (let s' := state_of (exec_suite (def_body test)
                            (set_locals {[ "epoch" := VInt epoch ]} s)) in
      parameters s' = parameters s /\ grad_enabled s' = grad_enabled s)
  /\ exists before loop,
       def_body test = before ++ [With no_grad [loop]]
       /\ forall s1, state_of (exec (With no_grad [loop]) s1)
                     = set_grad_enabled (grad_enabled s1)
                         (state_of (exec loop (set_grad_enabled false s1))).
Proof.
  split; [reflexivity|]. split; [reflexivity|]. split.
  - destruct (test_body_effect epoch s) as (l & t & ->). split; reflexivity.
  - exists [Expr (Module_eval (load "model")); Assign "test_loss" (mret (VInt 0))],
      (For (unpack_index_data "i" "data" "_") (enumerate (load "test_loader")) []).
    split; [reflexivity|].
    intros s1. rewrite exec_With. unfold no_grad at 1. rewrite exec_suite_cons.
    cbn [exec_suite].
    destruct (exec _ (set_grad_enabled false s1)) as [s2|v s2|e s2]; reflexivity.
Qed.

End VAE_test.

(** ** The second notebook: the classifier *)

Section Net_claims.
Import torch Py Calls AutodiffNnBasics.

(** The cell of the class compiles: every method has a body. *)
Example Net_cell_compiles : compile_cell Net_cell = Ok ().
Proof. reflexivity. Qed.

(** [__init__] registers the four layers with the shapes of its text. *)
Lemma Net_init_initialised s :
  initialised (model_obj (snd (call Net.__init__ [VModel] s))) = true.
Proof. destruct s. reflexivity. Qed.

Lemma Net_initialised_inv (m : nn.module) :
  initialised m = true ->
  nn.has_conv2d m "conv1" 1 10 5 = true /\ nn.has_conv2d m "conv2" 10 20 5 = true
  /\ nn.has_linear m "fc1" 320 50 = true /\ nn.has_linear m "fc2" 50 10 = true.
Proof.
  unfold initialised. rewrite !andb_true_iff. tauto.
Qed.

(** One run of [forward], given what each framework call returns. *)
Lemma Net_forward_run (s : state) (x : Tensor)
    ci1 co1 k1 w1 b1 ci2 co2 k2 w2 b2 i3 o3 w3 b3 i4 o4 w4 b4 c1 p1 c2 p2 v h y :
  nn.get_layer (model_obj s) "conv1" = Ok (nn.Conv2d_layer ci1 co1 k1 w1 b1) ->
  nn.get_layer (model_obj s) "conv2" = Ok (nn.Conv2d_layer ci2 co2 k2 w2 b2) ->
  nn.get_layer (model_obj s) "fc1" = Ok (nn.Linear_layer i3 o3 w3 b3) ->
  nn.get_layer (model_obj s) "fc2" = Ok (nn.Linear_layer i4 o4 w4 b4) ->
  F.conv2d x w1 b1 = Ok c1 -> F.max_pool2d c1 2 = Ok p1 ->
  F.conv2d (F.relu p1) w2 b2 = Ok c2 -> F.max_pool2d c2 2 = Ok p2 ->
  view_rows (F.relu p2) 320 = Ok v ->
  F.linear v w3 b3 = Ok h ->
  F.linear (F.dropout (F.relu h) (nn.training (model_obj s)) (rng s)) w4 b4 = Ok y ->
  call Net.forward [VModel; VTensor x] s =
  (Ok (VTensor y),
   if nn.training (model_obj s) then advance (length (data (F.relu h))) s else s).
Proof.
  intros G1 G2 G3 G4 Hc1 Hp1 Hc2 Hp2 Hv Hh Hy.
  destruct s as [l g m ge r]. simpl_state_all.
  unfold call.
  change (def_ok Net.forward) with true. cbv iota.
  change (bind_params (def_params Net.forward) [VModel; VTensor x])
    with (Some (list_to_map [("self", VModel); ("x", VTensor x)] : gmap string value)).
  cbv iota. simpl def_body.
  (* x = F.relu(F.max_pool2d(self.conv1(x), 2)) *)
  rewrite exec_suite_cons, exec_Assign.
  unfold tensor_value at 1, relu at 1, max_pool2d at 1. rewrite !bind_run.
  rewrite call_layer_local with (t := x) by reflexivity. simpl_state.
  rewrite G1. cbn [mbind result_bind nn.layer_call]. rewrite Hc1.
  unfold lift. rewrite Hp1. cbn [mret M_ret]. simpl_state.
  (* x = F.relu(F.max_pool2d(self.conv2(x), 2)) *)
  rewrite exec_suite_cons, exec_Assign.
  unfold tensor_value at 1, relu at 1, max_pool2d at 1. rewrite !bind_run.
  rewrite call_layer_local with (t := F.relu p1) by reflexivity. simpl_state.
  rewrite G2. cbn [mbind result_bind nn.layer_call]. rewrite Hc2.
  unfold lift. rewrite Hp2. cbn [mret M_ret]. simpl_state.
  (* x = x.view(-1, 320) *)
  rewrite exec_suite_cons, exec_Assign.
  unfold tensor_value at 1, view at 1. rewrite !bind_run.
  rewrite load_tensor_local with (t := F.relu p2) by reflexivity.
  unfold lift. rewrite Hv. cbn [mret M_ret]. simpl_state.
  (* x = F.relu(self.fc1(x)) *)
  rewrite exec_suite_cons, exec_Assign.
  unfold tensor_value at 1, relu at 1. rewrite !bind_run.
  rewrite call_layer_local with (t := v) by reflexivity. simpl_state.
  rewrite G3. cbn [mbind result_bind nn.layer_call]. rewrite Hh.
  cbn [mret M_ret]. simpl_state.
  (* x = F.dropout(x, training=self.training) *)
  rewrite exec_suite_cons, exec_Assign.
  unfold tensor_value at 1, dropout at 1. rewrite !bind_run.
  rewrite load_tensor_local with (t := F.relu h) by reflexivity.
  unfold get_training. rewrite !bind_run.
  rewrite load_local with (v := VModel) by reflexivity. simpl_state.
  cbn [mret M_ret].
  (* x = self.fc2(x); return x *)
  destruct (nn.training m); simpl_state;
    rewrite exec_suite_cons, exec_Assign;
    unfold tensor_value at 1; rewrite !bind_run;
    (rewrite call_layer_local with (t := F.dropout (F.relu h) _ r) by reflexivity);
    simpl_state; rewrite G4; cbn [mbind result_bind nn.layer_call]; rewrite Hy;
    cbn [mret M_ret]; simpl_state;
    rewrite exec_suite_cons, exec_Return;
    (rewrite load_local with (v := VTensor y) by reflexivity);
    reflexivity.
Qed.

(** C9.  For every batch [x] of shape (N, 1, 28, 28), [Net.forward]
    runs two stages of convolution and max-pooling, which give tensors of
    shape (N, 10, 12, 12) and (N, 20, 4, 4), flattens to (N, 320), applies
    the fully-connected layer [fc1] (to (N, 50)), dropout, and the
    fully-connected layer [fc2]; what it returns is the output [y] of [fc2]
    itself, of shape (N, 10): no softmax is applied, logit [j] of image [r]
    is the dot product of the 50 hidden activations of the image with row
    [j] of the weight of [fc2], plus its bias.  The parameters of the model
    are left as they were. *)
Theorem Net_forward_returns_logits (s : state) (x : Tensor) (n : nat) :
  initialised (model_obj s) = true ->
  shape x = [n; 1; 28; 28] ->
  exists ci1 co1 k1 w1 b1 ci2 co2 k2 w2 b2 i3 o3 w3 b3 i4 o4 w4 b4 c1 p1 c2 p2 v h y,
    nn.get_layer (model_obj s) "conv1" = Ok (nn.Conv2d_layer ci1 co1 k1 w1 b1)
    /\ nn.get_layer (model_obj s) "conv2" = Ok (nn.Conv2d_layer ci2 co2 k2 w2 b2)
    /\ nn.get_layer (model_obj s) "fc1" = Ok (nn.Linear_layer i3 o3 w3 b3)
    /\ nn.get_layer (model_obj s) "fc2" = Ok (nn.Linear_layer i4 o4 w4 b4)
    /\ F.conv2d x w1 b1 = Ok c1 /\ F.max_pool2d c1 2 = Ok p1
    /\ shape p1 = [n; 10; 12; 12]
    /\ F.conv2d (F.relu p1) w2 b2 = Ok c2 /\ F.max_pool2d c2 2 = Ok p2
    /\ shape p2 = [n; 20; 4; 4]
    /\ view_rows (F.relu p2) 320 = Ok v /\ shape v = [n; 320]
    /\ F.linear v w3 b3 = Ok h /\ shape h = [n; 50]
    /\ F.linear (F.dropout (F.relu h) (nn.training (model_obj s)) (rng s)) w4 b4 = Ok y
    /\ shape y = [n; 10] /\ well_formed y
    /\ fst (call Net.forward [VModel; VTensor x] s) = Ok (VTensor y)
    /\ parameters (snd (call Net.forward [VModel; VTensor x] s)) = parameters s
    /\ (forall r j, r < n -> j < 10 ->
          item y (r * 10 + j)
          = (sum_over 50 (fun c =>
               item (F.dropout (F.relu h) (nn.training (model_obj s)) (rng s)) (r * 50 + c)
               * item w4 (j * 50 + c))
             + item b4 j)%R).
Proof.
  intros Hi Hx. apply Net_initialised_inv in Hi as (H1 & H2 & H3 & H4).
  apply has_conv2d_get in H1 as (ci1 & co1 & k1 & w1 & b1 & G1 & Hw1 & Hb1).
  apply has_conv2d_get in H2 as (ci2 & co2 & k2 & w2 & b2 & G2 & Hw2 & Hb2).
  apply has_linear_get in H3 as (i3 & o3 & w3 & b3 & G3 & Hw3 & Hb3).
  apply has_linear_get in H4 as (i4 & o4 & w4 & b4 & G4 & Hw4 & Hb4).
  destruct (conv2d_shape x w1 b1 n 1 28 28 10 5 Hx Hw1 Hb1) as (c1 & Hc1 & Hsc1 & _);
    [lia..|].
  change [n; 10; 28 - 5 + 1; 28 - 5 + 1] with [n; 10; 24; 24] in Hsc1.
  destruct (max_pool2d_shape c1 n 10 24 24 2 Hsc1) as (p1 & Hp1 & Hsp1 & _); [lia..|].
  change [n; 10; (24 - 2) / 2 + 1; (24 - 2) / 2 + 1] with [n; 10; 12; 12] in Hsp1.
  destruct (conv2d_shape (F.relu p1) w2 b2 n 10 12 12 20 5 Hsp1 Hw2 Hb2)
    as (c2 & Hc2 & Hsc2 & _); [lia..|].
  change [n; 20; 12 - 5 + 1; 12 - 5 + 1] with [n; 20; 8; 8] in Hsc2.
  destruct (max_pool2d_shape c2 n 20 8 8 2 Hsc2) as (p2 & Hp2 & Hsp2 & _); [lia..|].
  change [n; 20; (8 - 2) / 2 + 1; (8 - 2) / 2 + 1] with [n; 20; 4; 4] in Hsp2.
  destruct (view_rows_shape (F.relu p2) n 320) as (v & Hv & Hsv & _); [lia| |].
  { rewrite relu_shape, Hsp2. cbn [numel fold_right]. lia. }
  destruct (linear_shape v w3 b3 [n] 320 50 Hw3 Hb3 Hsv) as (h & Hh & Hsh & _).
  assert (Hsd : shape (F.dropout (F.relu h) (nn.training (model_obj s)) (rng s))
                = [n] ++ [50]) by (now rewrite dropout_shape, relu_shape).
  destruct (linear_shape _ w4 b4 [n] 50 10 Hw4 Hb4 Hsd) as (y & Hy & Hsy & Hwy).
  exists ci1, co1, k1, w1, b1, ci2, co2, k2, w2, b2, i3, o3, w3, b3, i4, o4, w4, b4.
  exists c1, p1, c2, p2, v, h, y.
  do 17 (split; [assumption|]).
  rewrite (Net_forward_run s x _ _ _ _ _ _ _ _ _ _ _ _ _ _ _ _ _ _ _ _ _ _ _ _ _
             G1 G2 G3 G4 Hc1 Hp1 Hc2 Hp2 Hv Hh Hy).
  split; [reflexivity|]. split.
  - cbn [snd]. now destruct (nn.training (model_obj s)).
  - intros r j Hr Hj. apply (linear_item _ w4 b4 y [n] 50 10 r j Hw4 Hsd Hy); [|exact Hj].
    cbn [numel fold_right]. lia.
Qed.

Lemma Net_forward_returns_logits_witness :
  initialised (model_obj started) = true
  /\ shape (zeros [2; 1; 28; 28]) = [2; 1; 28; 28]
  /\ exists y,
       fst (call Net.forward [VModel; VTensor (zeros [2; 1; 28; 28])] started)
         = Ok (VTensor y)
       /\ shape y = [2; 10].
Proof.
  split; [reflexivity|]. split; [reflexivity|].
  destruct (Net_forward_returns_logits started (zeros [2; 1; 28; 28]) 2 eq_refl eq_refl)
    as (ci1 & co1 & k1 & w1 & b1 & ci2 & co2 & k2 & w2 & b2 & i3 & o3 & w3 & b3
        & i4 & o4 & w4 & b4 & c1 & p1 & c2 & p2 & v & h & y & H).
  exists y. split; apply H.
Defined.

End Net_claims.

(** * More of the first notebook *)

(** ** What [decode] returns and what it rejects *)

Section VAE_decoder.
Import torch Py Calls BasicVAE.

Lemma sigmoid_bounds (v : R) : (0 < 1 / (1 + exp (- v)) < 1)%R.
Proof.
  pose proof (exp_pos (- v)) as He. split.
  - apply Rdiv_lt_0_compat; lra.
  - apply Rmult_lt_reg_r with (1 + exp (- v))%R; [lra|].
    unfold Rdiv. rewrite Rmult_assoc, Rinv_l by lra. lra.
Qed.

(** X1.  decode(z), for a latent z of shape [...; 20], returns a well-formed
    tensor of shape [...; 784] whose elements all lie between 0 and 1
    (means of Bernoulli pixels), and leaves the state as it was. *)
Theorem decode_outputs_are_probabilities (s : state) (z : Tensor) (lead : list nat) :
  initialised (model_obj s) = true ->
  shape z = lead ++ [20] ->
  exists recon,
    call VAE.decode [VModel; VTensor z] s = (Ok (VTensor recon), s)
    /\ shape recon = lead ++ [784] /\ well_formed recon
    /\ forall k, k < numel (lead ++ [784]) -> (0 <= item recon k <= 1)%R.
Proof.
  intros Hi Hz. apply initialised_inv in Hi as (_ & _ & _ & H3 & H4).
  apply has_linear_get in H3 as (i3 & o3 & w3 & b3 & G3 & Hw3 & Hb3).
  apply has_linear_get in H4 as (i4 & o4 & w4 & b4 & G4 & Hw4 & Hb4).
  rewrite decode_unfold, G3, G4. cbn [mbind result_bind nn.layer_call].
  destruct (linear_shape z w3 b3 lead 20 400 Hw3 Hb3 Hz) as (h & Hh & Hsh & _).
  rewrite Hh. cbn [mbind result_bind].
  destruct (linear_shape (F.relu h) w4 b4 lead 400 784 Hw4 Hb4 Hsh) as (y & Hy & Hsy & Hwy).
  rewrite Hy. exists (torch.sigmoid y). split; [reflexivity|].
  split; [now rewrite sigmoid_shape|].
  unfold well_formed in *. unfold torch.sigmoid. cbn [shape data].
  split; [now rewrite length_map|].
  intros k Hk. unfold item. cbn [data].
  rewrite (nth_indep _ 0%R (1 / (1 + exp (- 0)))%R)
    by (rewrite length_map, Hwy, Hsy; exact Hk).
  rewrite (map_nth (fun v => (1 / (1 + exp (- v)))%R)).
  pose proof (sigmoid_bounds (nth k (data y) 0%R)). lra.
Qed.

Lemma decode_outputs_are_probabilities_witness :
  initialised (model_obj started) = true
  /\ exists recon,
       call VAE.decode [VModel; VTensor (zeros [3; 20])] started = (Ok (VTensor recon), started)
       /\ shape recon = [3; 784]
       /\ forall k, k < numel [3; 784] -> (0 <= item recon k <= 1)%R.
Proof.
  split; [reflexivity|].
  destruct (decode_outputs_are_probabilities started (zeros [3; 20]) [3] eq_refl eq_refl)
    as (recon & Hcall & Hs & _ & Hr).
  exists recon. split; [exact Hcall|]. split; [exact Hs|exact Hr].
Defined.

Lemma linear_rejects (x w b : Tensor) (i o : nat) :
  shape w = [o; i] -> List.last (shape x) 0 <> i ->
  F.linear x w b = Raise (RuntimeError "mat1 and mat2 shapes cannot be multiplied").
Proof.
  intros Hw Hl. unfold F.linear. rewrite Hw.
  destruct (rev (shape x)) as [|k lead] eqn:Hr; [reflexivity|].
  assert (Hx : shape x = rev lead ++ [k]).
  { rewrite <- (rev_involutive (shape x)), Hr. reflexivity. }
  rewrite Hx, List.last_last in Hl.
  destruct (Nat.eqb_spec k i) as [E|E]; [contradiction|]. reflexivity.
Qed.

(** X2.  decode raises RuntimeError, and leaves the state as it was, for every
    latent whose last dimension is not 20 (a 0-dimensional tensor
    included). *)
Theorem decode_rejects_other_latent_sizes (s : state) (z : Tensor) :
  initialised (model_obj s) = true ->
  List.last (shape z) 0 <> 20 ->
  exists what, call VAE.decode [VModel; VTensor z] s = (Raise (RuntimeError what), s).
Proof.
  intros Hi Hz. apply initialised_inv in Hi as (_ & _ & _ & H3 & _).
  apply has_linear_get in H3 as (i3 & o3 & w3 & b3 & G3 & Hw3 & Hb3).
  rewrite decode_unfold, G3. cbn [mbind result_bind nn.layer_call].
  rewrite (linear_rejects z w3 b3 20 400 Hw3 Hz).
  eexists. reflexivity.
Qed.

Lemma decode_rejects_other_latent_sizes_witness :
  exists what,
    call VAE.decode [VModel; VTensor (zeros [3; 784])] started
    = (Raise (RuntimeError what), started).
Proof.
  apply (decode_rejects_other_latent_sizes started (zeros [3; 784])).
  - reflexivity.
  - simpl. lia.
Defined.

End VAE_decoder.

(** ** [encode] treats the rows of a batch one by one *)

Section VAE_encoder_rows.
Import torch Py Calls BasicVAE.

Lemma sum_over_ext (n : nat) (g1 g2 : nat -> R) :
  (forall c, c < n -> g1 c = g2 c) -> sum_over n g1 = sum_over n g2.
Proof.
  intros H. unfold sum_over.
  assert (Hin : forall c, In c (seq 0 n) -> g1 c = g2 c)
    by (intros c Hc; apply in_seq in Hc; apply H; lia).
  induction (seq 0 n) as [|k l IH]; cbn [fold_right]; [reflexivity|].
  rewrite Hin by now left. rewrite IH; [reflexivity|].
  intros c Hc. apply Hin. now right.
Qed.

Lemma relu_item (h : Tensor) (k : nat) : item (F.relu h) k = Rmax 0 (item h k).
Proof.
  unfold item, F.relu. cbn [data].
  rewrite <- (map_nth (fun v => Rmax 0 v) (data h) 0%R k).
  f_equal. unfold Rmax. destruct (Rle_dec 0 0); reflexivity.
Qed.

(** Equal rows of two inputs give equal rows of the outputs of a linear
    layer. *)
Lemma linear_rows_agree (x x' w b y y' : Tensor) (lead lead' : list nat) (i o r r' : nat) :
  shape w = [o; i] -> shape x = lead ++ [i] -> shape x' = lead' ++ [i] ->
  F.linear x w b = Ok y -> F.linear x' w b = Ok y' ->
  r < numel lead -> r' < numel lead' ->
  (forall c, c < i -> item x (r * i + c) = item x' (r' * i + c)) ->
  forall j, j < o -> item y (r * o + j) = item y' (r' * o + j).
Proof.
  intros Hw Hx Hx' Hy Hy' Hr Hr' Hrow j Hj.
  rewrite (linear_item x w b y lead i o r j Hw Hx Hy Hr Hj).
  rewrite (linear_item x' w b y' lead' i o r' j Hw Hx' Hy' Hr' Hj).
  f_equal. apply sum_over_ext. intros c Hc. now rewrite Hrow.
Qed.

(** X3.  Over the reals, encode treats the examples of a batch one by one:
    when row r of x and row r' of x' hold the same 784 numbers, row r of
    the mean and of the log-variance returned for x equal row r' of those
    returned for x', whatever the other rows and the batch sizes are.  (The
    elements are real numbers here; with 32-bit floats the framework picks
    its kernels by the size of the batch, and rows computed in batches of
    different sizes can differ in their last bits.) *)
Theorem encode_rows_independent (s : state) (x x' : Tensor) (lead lead' : list nat)
    (r r' : nat) :
  initialised (model_obj s) = true ->
  shape x = lead ++ [784] -> shape x' = lead' ++ [784] ->
  r < numel lead -> r' < numel lead' ->
  (forall c, c < 784 -> item x (r * 784 + c) = item x' (r' * 784 + c)) ->
  exists mu logvar mu' logvar',
    call VAE.encode [VModel; VTensor x] s = (Ok (VTuple [VTensor mu; VTensor logvar]), s)
    /\ call VAE.encode [VModel; VTensor x'] s = (Ok (VTuple [VTensor mu'; VTensor logvar']), s)
    /\ forall j, j < 20 ->
         item mu (r * 20 + j) = item mu' (r' * 20 + j)
         /\ item logvar (r * 20 + j) = item logvar' (r' * 20 + j).
Proof.
  intros Hi Hx Hx' Hr Hr' Hrow. apply initialised_inv in Hi as (H1 & H21 & H22 & _ & _).
  apply has_linear_get in H1 as (i1 & o1 & w1 & b1 & G1 & Hw1 & Hb1).
  apply has_linear_get in H21 as (i21 & o21 & w21 & b21 & G21 & Hw21 & Hb21).
  apply has_linear_get in H22 as (i22 & o22 & w22 & b22 & G22 & Hw22 & Hb22).
  rewrite !encode_unfold, G1, G21, G22. cbn [mbind result_bind nn.layer_call].
  destruct (linear_shape x w1 b1 lead 784 400 Hw1 Hb1 Hx) as (h & Hh & Hsh & _).
  destruct (linear_shape x' w1 b1 lead' 784 400 Hw1 Hb1 Hx') as (h' & Hh' & Hsh' & _).
  rewrite Hh, Hh'. cbn [mbind result_bind].
  rewrite <- (relu_shape h) in Hsh. rewrite <- (relu_shape h') in Hsh'.
  destruct (linear_shape (F.relu h) w21 b21 lead 400 20 Hw21 Hb21 Hsh) as (mu & Hmu & _).
  destruct (linear_shape (F.relu h) w22 b22 lead 400 20 Hw22 Hb22 Hsh) as (lv & Hlv & _).
  destruct (linear_shape (F.relu h') w21 b21 lead' 400 20 Hw21 Hb21 Hsh') as (mu' & Hmu' & _).
  destruct (linear_shape (F.relu h') w22 b22 lead' 400 20 Hw22 Hb22 Hsh') as (lv' & Hlv' & _).
  rewrite Hmu, Hmu'. cbn [mbind result_bind]. rewrite Hlv, Hlv'.
  exists mu, lv, mu', lv'. split; [reflexivity|]. split; [reflexivity|].
  assert (Hhid : forall c, c < 400 ->
            item (F.relu h) (r * 400 + c) = item (F.relu h') (r' * 400 + c)).
  { intros c Hc. rewrite !relu_item. f_equal.
    rewrite relu_shape in Hsh, Hsh'.
    exact (linear_rows_agree x x' w1 b1 h h' lead lead' 784 400 r r'
             Hw1 Hx Hx' Hh Hh' Hr Hr' Hrow c Hc). }
  intros j Hj. split.
  - exact (linear_rows_agree _ _ w21 b21 mu mu' lead lead' 400 20 r r'
             Hw21 Hsh Hsh' Hmu Hmu' Hr Hr' Hhid j Hj).
  - exact (linear_rows_agree _ _ w22 b22 lv lv' lead lead' 400 20 r r'
             Hw22 Hsh Hsh' Hlv Hlv' Hr Hr' Hhid j Hj).
Qed.

Lemma item_zeros (sh : list nat) (k : nat) : item (zeros sh) k = 0%R.
Proof. unfold item, zeros, full. cbn [data]. apply nth_repeat. Qed.

Lemma encode_rows_independent_witness :
  exists mu logvar mu' logvar',
    call VAE.encode [VModel; VTensor (zeros [2; 784])] started
      = (Ok (VTuple [VTensor mu; VTensor logvar]), started)
    /\ call VAE.encode [VModel; VTensor (zeros [1; 784])] started
       = (Ok (VTuple [VTensor mu'; VTensor logvar']), started)
    /\ forall j, j < 20 ->
         item mu (1 * 20 + j) = item mu' (0 * 20 + j)
         /\ item logvar (1 * 20 + j) = item logvar' (0 * 20 + j).
Proof.
  apply (encode_rows_independent started (zeros [2; 784]) (zeros [1; 784]) [2] [1] 1 0).
  - reflexivity.
  - reflexivity.
  - reflexivity.
  - simpl. lia.
  - simpl. lia.
  - intros c Hc. now rewrite !item_zeros.
Defined.

End VAE_encoder_rows.

(** ** [train] as the notebook has it *)

Section VAE_training_loop.
Import torch Py Calls BasicVAE.

Lemma train_body_effect (epoch : Z) (s : state) :
  globals s !! "model" = Some VModel ->
  exists l,
    state_of (exec_suite (def_body train) (set_locals {[ "epoch" := VInt epoch ]} s))
    = set_locals l (set_model (nn.mkModule (nn._modules (model_obj s)) true) s).
Proof.
  destruct s as [l g [ms tr] ge r]. simpl_state. intros Hm. simpl def_body.
  rewrite exec_suite_cons, exec_Expr.
  unfold Module_train, set_training. rewrite bind_run.
  rewrite load_global by reflexivity. simpl_state. rewrite Hm.
  simpl_state.
  rewrite exec_suite_cons, exec_Assign. cbn [mret M_ret]. simpl_state.
  rewrite exec_suite_cons, exec_For. unfold enumerate. rewrite bind_run.
  rewrite load_global by reflexivity. simpl_state.
  destruct (g !! "train_loader") as [v|]; [|eexists; reflexivity].
  destruct v; try (eexists; reflexivity).
  cbn [mret M_ret].
  match goal with |- context [for_loop ?b ?r ?items ?s0] =>
    destruct (for_loop_empty_suite "batch_idx" "data" "_" r (fun s => eq_refl) items s0)
      as [l' Hl'];
    destruct (for_loop b r items s0) as [s2|v s2|e s2]; cbn [state_of] in Hl'; subst s2
  end; exists l'; reflexivity.
Qed.

Lemma test_body_mode (epoch : Z) (s : state) :
  globals s !! "model" = Some VModel ->
  exists l,
    state_of (exec_suite (def_body test) (set_locals {[ "epoch" := VInt epoch ]} s))
    = set_locals l (set_model (nn.mkModule (nn._modules (model_obj s)) false) s).
Proof.
  destruct s as [l g [ms tr] ge r]. simpl_state. intros Hm. simpl def_body.
  rewrite exec_suite_cons, exec_Expr.
  unfold Module_eval, set_training. rewrite bind_run.
  rewrite load_global by reflexivity. simpl_state. rewrite Hm.
  simpl_state.
  rewrite exec_suite_cons, exec_Assign. cbn [mret M_ret]. simpl_state.
  rewrite exec_suite_cons, exec_With. unfold no_grad at 1. simpl_state.
  rewrite exec_suite_cons, exec_For. unfold enumerate. rewrite bind_run.
  rewrite load_global by reflexivity. simpl_state.
  destruct (g !! "test_loader") as [v|]; [|eexists; reflexivity].
  destruct v; try (eexists; reflexivity).
  cbn [mret M_ret].
  match goal with |- context [for_loop ?b ?r ?items ?s0] =>
    destruct (for_loop_empty_suite "i" "data" "_" r (fun s => eq_refl) items s0) as [l' Hl'];
    destruct (for_loop b r items s0) as [s2|v s2|e s2]; cbn [state_of] in Hl'; subst s2
  end; exists l'; reflexivity.
Qed.

(** X4.  train(epoch) performs no learning step.  As the notebook stands the
    suite of its for loop is empty, so the call ends in IndentationError
    with the state as it was.  The statements that are there, run as they
    stand for any batches in the loader, leave every weight and bias, the
    notebook's names and the autograd mode as they were; they put the model
    in training mode, as those of test put it in evaluation mode.  (What a
    shuffling loader takes from the random generator is not modelled.) *)
Theorem train_leaves_parameters_unchanged (epoch : Z) (s : state) :
  globals s !! "model" = Some VModel ->
  call train [VInt epoch] s = (Raise IndentationError, s)
  /\ (let s' := state_of (exec_suite (def_body train)
                            (set_locals {[ "epoch" := VInt epoch ]} s)) in
      parameters s' = parameters s /\ globals s' = globals s
      /\ grad_enabled s' = grad_enabled s
      /\ nn.training (model_obj s') = true)
  /\ (let s' := state_of (exec_suite (def_body test)
                            (set_locals {[ "epoch" := VInt epoch ]} s)) in
      nn.training (model_obj s') = false).
Proof.
  intros Hm. split; [reflexivity|]. split.
  - destruct (train_body_effect epoch s Hm) as (l & ->). repeat split.
  - destruct (test_body_mode epoch s Hm) as (l & ->). reflexivity.
Qed.

Lemma train_leaves_parameters_unchanged_witness :
  call train [VInt 1] started = (Raise IndentationError, started)
  /\ parameters (state_of (exec_suite (def_body train)
                             (set_locals {[ "epoch" := VInt 1 ]} started)))
     = parameters started.
Proof.
  destruct (train_leaves_parameters_unchanged 1 started eq_refl) as (Hcall & Hrun & _).
  split; [exact Hcall|]. apply Hrun.
Defined.

End VAE_training_loop.

(** * The constructors of the two models *)

Section Constructors.
Import torch Py Calls.

Lemma exec_SetAttr_self (attr : string) (e : M value) (l : nn.layer) (s s' : state) :
  e s = (Ok (VLayer l), s') ->
  locals s' !! "self" = Some VModel ->
  exec (SetAttr "self" attr e) s
  = Normal (set_model (nn.mkModule (<[attr := l]> (nn._modules (model_obj s')))
                         (nn.training (model_obj s'))) s').
Proof.
  intros He Hl.
  change (exec (SetAttr "self" attr e) s)
    with (match e s with
          | (Ok v, s1) =>
              match setattr "self" attr v s1 with
              | (Ok _, s2) => Normal s2
              | (Raise err, s2) => Raised err s2
              end
          | (Raise err, s1) => Raised err s1
          end).
  rewrite He. unfold setattr. rewrite bind_run, (load_local _ _ _ Hl). reflexivity.
Qed.

Lemma VAE_init_run (s : state) :
  call BasicVAE.VAE.__init__ [VModel] s =
  (Ok VNone,
   let s1 := advance (nn.Linear_draws 784 400) s in
   let s2 := advance (nn.Linear_draws 400 20) s1 in
   let s3 := advance (nn.Linear_draws 400 20) s2 in
   let s4 := advance (nn.Linear_draws 20 400) s3 in
   let s5 := advance (nn.Linear_draws 400 784) s4 in
   mkState (locals s) (globals s)
     (nn.mkModule
        (<["fc4" := nn.Linear 400 784 (rng s4)]>
           (<["fc3" := nn.Linear 20 400 (rng s3)]>
              (<["fc22" := nn.Linear 400 20 (rng s2)]>
                 (<["fc21" := nn.Linear 400 20 (rng s1)]>
                    (<["fc1" := nn.Linear 784 400 (rng s)]> ∅)))))
        true)
     (grad_enabled s) (rng s5)).
Proof.
  destruct s as [l g m ge r]. cbv zeta.
  unfold call.
  change (def_ok BasicVAE.VAE.__init__) with true. cbv iota.
  change (bind_params (def_params BasicVAE.VAE.__init__) [VModel])
    with (Some (list_to_map [("self", VModel)] : gmap string value)).
  cbv iota. simpl def_body.
  rewrite exec_suite_cons, exec_Expr.
  unfold Module___init__. rewrite bind_run.
  rewrite load_local with (v := VModel) by reflexivity. simpl_state.
  rewrite exec_suite_cons.
  rewrite (exec_SetAttr_self "fc1" (Linear 784 400) _ _ _ eq_refl) by reflexivity. simpl_state.
  cbn [nn._modules nn.training].
  rewrite exec_suite_cons.
  rewrite (exec_SetAttr_self "fc21" (Linear 400 20) _ _ _ eq_refl) by reflexivity. simpl_state.
  cbn [nn._modules nn.training].
  rewrite exec_suite_cons.
  rewrite (exec_SetAttr_self "fc22" (Linear 400 20) _ _ _ eq_refl) by reflexivity. simpl_state.
  cbn [nn._modules nn.training].
  rewrite exec_suite_cons.
  rewrite (exec_SetAttr_self "fc3" (Linear 20 400) _ _ _ eq_refl) by reflexivity. simpl_state.
  cbn [nn._modules nn.training].
  rewrite exec_suite_cons.
  rewrite (exec_SetAttr_self "fc4" (Linear 400 784) _ _ _ eq_refl) by reflexivity. simpl_state.
  cbn [nn._modules nn.training].
  reflexivity.
Qed.


Lemma rng_advance (n : nat) (s : state) (k : nat) : rng (advance n s) k = rng s (n + k).
Proof. reflexivity. Qed.

Lemma VAE_init_registry (s : state) :
  dom (parameters (snd (call BasicVAE.VAE.__init__ [VModel] s)))
  = (list_to_set ["fc1"; "fc21"; "fc22"; "fc3"; "fc4"] : gset string).
Proof.
  rewrite VAE_init_run. cbv zeta. unfold parameters. cbn [snd model_obj nn._modules].
  rewrite !dom_insert_L, dom_empty_L. apply set_eq. intros x.
  rewrite elem_of_list_to_set, !elem_of_union, !elem_of_singleton, !elem_of_cons,
    elem_of_nil, elem_of_empty.
  tauto.
Qed.

Lemma VAE_init_frame (s : state) :
  let s' := snd (call BasicVAE.VAE.__init__ [VModel] s) in
  nn.training (model_obj s') = true
  /\ locals s' = locals s /\ globals s' = globals s /\ grad_enabled s' = grad_enabled s.
Proof.
  cbv zeta. rewrite VAE_init_run. cbv zeta.
  cbn [snd locals globals grad_enabled model_obj nn.training].
  repeat split.
Qed.

Lemma VAE_init_draws :
  Z.of_nat (nn.Linear_draws 784 400
     + nn.Linear_draws 400 20
     + nn.Linear_draws 400 20
     + nn.Linear_draws 20 400
     + nn.Linear_draws 400 784) = 652824%Z.
Proof.
  unfold nn.Linear_draws, nn.Conv2d_draws.
  rewrite !Nat2Z.inj_add, !Nat2Z.inj_mul. reflexivity.
Qed.

Lemma VAE_init_rng (s : state) (k : nat) :
  rng (snd (call BasicVAE.VAE.__init__ [VModel] s)) k
  = rng s (nn.Linear_draws 784 400
     + nn.Linear_draws 400 20
     + nn.Linear_draws 400 20
     + nn.Linear_draws 20 400
     + nn.Linear_draws 400 784 + k).
Proof.
  rewrite VAE_init_run. cbv zeta. unfold snd. unfold rng at 1.
  rewrite !rng_advance, !Nat.add_assoc. reflexivity.
Qed.

Lemma VAE_init_reproducible (s s2 : state) :
  rng s2 = rng s ->
  model_obj (snd (call BasicVAE.VAE.__init__ [VModel] s2))
  = model_obj (snd (call BasicVAE.VAE.__init__ [VModel] s)).
Proof.
  intros Hr. rewrite !VAE_init_run. cbv zeta. cbn [snd model_obj].
  simpl_state. rewrite Hr. reflexivity.
Qed.

(** X5.  VAE() builds the model from the random generator alone.  Whatever the
    state before, the constructor returns None, registers exactly the five
    layers fc1, fc21, fc22, fc3 and fc4 with the shapes of its text, leaves
    the model in training mode, and draws one value per parameter, 652,824
    in all; a second run from the same generator gives the same model,
    whatever model there was before.  The namespaces and the autograd mode
    are as before. *)
Theorem VAE_init_builds_model (s : state) :
  let s' := snd (call BasicVAE.VAE.__init__ [VModel] s) in
  fst (call BasicVAE.VAE.__init__ [VModel] s) = Ok VNone
  /\ BasicVAE.initialised (model_obj s') = true
  /\ dom (parameters s') = (list_to_set ["fc1"; "fc21"; "fc22"; "fc3"; "fc4"] : gset string)
  /\ nn.training (model_obj s') = true
  /\ locals s' = locals s /\ globals s' = globals s /\ grad_enabled s' = grad_enabled s
  /\ (exists total, Z.of_nat total = 652824%Z /\ forall k, rng s' k = rng s (total + k))
  /\ (forall s2, rng s2 = rng s ->
        model_obj (snd (call BasicVAE.VAE.__init__ [VModel] s2)) = model_obj s').
Proof.
  cbv zeta.
  split; [rewrite VAE_init_run; reflexivity|].
  split; [apply init_initialised|].
  split; [apply VAE_init_registry|].
  destruct (VAE_init_frame s) as (Ht & Hl & Hg & Hge).
  do 4 (split; [assumption|]).
  split.
  - eexists. split; [exact VAE_init_draws|]. intros k. apply VAE_init_rng.
  - intros s2 Hr. now apply VAE_init_reproducible.
Qed.

Lemma Net_init_run (s : state) :
  call AutodiffNnBasics.Net.__init__ [VModel] s =
  (Ok VNone,
   let s1 := advance (nn.Conv2d_draws 1 10 5) s in
   let s2 := advance (nn.Conv2d_draws 10 20 5) s1 in
   let s3 := advance (nn.Linear_draws 320 50) s2 in
   let s4 := advance (nn.Linear_draws 50 10) s3 in
   mkState (locals s) (globals s)
     (nn.mkModule
        (<["fc2" := nn.Linear 50 10 (rng s3)]>
           (<["fc1" := nn.Linear 320 50 (rng s2)]>
              (<["conv2" := nn.Conv2d 10 20 5 (rng s1)]>
                 (<["conv1" := nn.Conv2d 1 10 5 (rng s)]> ∅))))
        true)
     (grad_enabled s) (rng s4)).
Proof.
  destruct s as [l g m ge r]. cbv zeta.
  unfold call.
  change (def_ok AutodiffNnBasics.Net.__init__) with true. cbv iota.
  change (bind_params (def_params AutodiffNnBasics.Net.__init__) [VModel])
    with (Some (list_to_map [("self", VModel)] : gmap string value)).
  cbv iota. simpl def_body.
  rewrite exec_suite_cons, exec_Expr.
  unfold Module___init__. rewrite bind_run.
  rewrite load_local with (v := VModel) by reflexivity. simpl_state.
  rewrite exec_suite_cons.
  rewrite (exec_SetAttr_self "conv1" (Conv2d 1 10 5) _ _ _ eq_refl) by reflexivity.
  simpl_state. cbn [nn._modules nn.training].
  rewrite exec_suite_cons.
  rewrite (exec_SetAttr_self "conv2" (Conv2d 10 20 5) _ _ _ eq_refl) by reflexivity.
  simpl_state. cbn [nn._modules nn.training].
  rewrite exec_suite_cons.
  rewrite (exec_SetAttr_self "fc1" (Linear 320 50) _ _ _ eq_refl) by reflexivity.
  simpl_state. cbn [nn._modules nn.training].
  rewrite exec_suite_cons.
  rewrite (exec_SetAttr_self "fc2" (Linear 50 10) _ _ _ eq_refl) by reflexivity.
  simpl_state. cbn [nn._modules nn.training].
  reflexivity.
Qed.

Lemma Net_init_registry (s : state) :
  dom (parameters (snd (call AutodiffNnBasics.Net.__init__ [VModel] s)))
  = (list_to_set ["conv1"; "conv2"; "fc1"; "fc2"] : gset string).
Proof.
  rewrite Net_init_run. cbv zeta. unfold parameters. cbn [snd model_obj nn._modules].
  rewrite !dom_insert_L, dom_empty_L. apply set_eq. intros x.
  rewrite elem_of_list_to_set, !elem_of_union, !elem_of_singleton, !elem_of_cons,
    elem_of_nil, elem_of_empty.
  tauto.
Qed.

Lemma Net_init_frame (s : state) :
  let s' := snd (call AutodiffNnBasics.Net.__init__ [VModel] s) in
  nn.training (model_obj s') = true
  /\ locals s' = locals s /\ globals s' = globals s /\ grad_enabled s' = grad_enabled s.
Proof.
  cbv zeta. rewrite Net_init_run. cbv zeta.
  cbn [snd locals globals grad_enabled model_obj nn.training].
  repeat split.
Qed.

Lemma Net_init_draws :
  Z.of_nat (nn.Conv2d_draws 1 10 5
     + nn.Conv2d_draws 10 20 5
     + nn.Linear_draws 320 50
     + nn.Linear_draws 50 10) = 21840%Z.
Proof.
  unfold nn.Linear_draws, nn.Conv2d_draws.
  rewrite !Nat2Z.inj_add, !Nat2Z.inj_mul. reflexivity.
Qed.

Lemma Net_init_rng (s : state) (k : nat) :
  rng (snd (call AutodiffNnBasics.Net.__init__ [VModel] s)) k
  = rng s (nn.Conv2d_draws 1 10 5
     + nn.Conv2d_draws 10 20 5
     + nn.Linear_draws 320 50
     + nn.Linear_draws 50 10 + k).
Proof.
  rewrite Net_init_run. cbv zeta. unfold snd. unfold rng at 1.
  rewrite !rng_advance, !Nat.add_assoc. reflexivity.
Qed.

Lemma Net_init_reproducible (s s2 : state) :
  rng s2 = rng s ->
  model_obj (snd (call AutodiffNnBasics.Net.__init__ [VModel] s2))
  = model_obj (snd (call AutodiffNnBasics.Net.__init__ [VModel] s)).
Proof.
  intros Hr. rewrite !Net_init_run. cbv zeta. cbn [snd model_obj].
  simpl_state. rewrite Hr. reflexivity.
Qed.

(** X6.  Net() builds the classifier from the random generator alone.  Whatever
    the state before, the constructor returns None, registers exactly the
    four layers conv1, conv2, fc1 and fc2 with the shapes of its text,
    leaves the model in training mode, and draws one value per parameter,
    21,840 in all; a second run from the same generator gives the same
    model.  The namespaces and the autograd mode are as before. *)
Theorem Net_init_builds_model (s : state) :
  let s' := snd (call AutodiffNnBasics.Net.__init__ [VModel] s) in
  fst (call AutodiffNnBasics.Net.__init__ [VModel] s) = Ok VNone
  /\ AutodiffNnBasics.initialised (model_obj s') = true
  /\ dom (parameters s') = (list_to_set ["conv1"; "conv2"; "fc1"; "fc2"] : gset string)
  /\ nn.training (model_obj s') = true
  /\ locals s' = locals s /\ globals s' = globals s /\ grad_enabled s' = grad_enabled s
  /\ (exists total, Z.of_nat total = 21840%Z /\ forall k, rng s' k = rng s (total + k))
  /\ (forall s2, rng s2 = rng s ->
        model_obj (snd (call AutodiffNnBasics.Net.__init__ [VModel] s2)) = model_obj s').
Proof.
  cbv zeta.
  split; [rewrite Net_init_run; reflexivity|].
  split; [apply Net_init_initialised|].
  split; [apply Net_init_registry|].
  destruct (Net_init_frame s) as (Ht & Hl & Hg & Hge).
  do 4 (split; [assumption|]).
  split.
  - eexists. split; [exact Net_init_draws|]. intros k. apply Net_init_rng.
  - intros s2 Hr. now apply Net_init_reproducible.
Qed.

End Constructors.

(** * More of the second notebook *)

(** ** The inputs that [Net.forward] accepts *)

Section Net_forward_inputs.
Import torch Py Calls AutodiffNnBasics.

(** One run of [forward]: everything up to the dropout reads the layers and
    the argument only; the dropout takes its draws from the generator when
    the model is in training mode. *)
Lemma Net_forward_unfold (s : state) (x : Tensor) :
  call Net.forward [VModel; VTensor x] s =
  match (l1 ← nn.get_layer (model_obj s) "conv1";
         c1 ← nn.layer_call l1 x;
         p1 ← F.max_pool2d c1 2;
         l2 ← nn.get_layer (model_obj s) "conv2";
         c2 ← nn.layer_call l2 (F.relu p1);
         p2 ← F.max_pool2d c2 2;
         v ← view_rows (F.relu p2) 320;
         l3 ← nn.get_layer (model_obj s) "fc1";
         h ← nn.layer_call l3 v;
         Ok (F.relu h)) with
  | Raise e => (Raise e, s)
  | Ok hr =>
      (l4 ← nn.get_layer (model_obj s) "fc2";
       y ← nn.layer_call l4 (F.dropout hr (nn.training (model_obj s)) (rng s));
       mret (VTensor y),
       if nn.training (model_obj s) then advance (length (data hr)) s else s)
  end.
Proof.
  destruct s as [l g m ge r]. simpl_state.
  unfold call.
  change (def_ok Net.forward) with true. cbv iota.
  change (bind_params (def_params Net.forward) [VModel; VTensor x])
    with (Some (list_to_map [("self", VModel); ("x", VTensor x)] : gmap string value)).
  cbv iota. simpl def_body.
  (* x = F.relu(F.max_pool2d(self.conv1(x), 2)) *)
  rewrite exec_suite_cons, exec_Assign.
  unfold tensor_value at 1, relu at 1, max_pool2d at 1. rewrite !bind_run.
  rewrite call_layer_local with (t := x) by reflexivity. simpl_state.
  destruct (nn.get_layer m "conv1") as [l1|e]; [|reflexivity].
  cbn [mbind result_bind].
  destruct (nn.layer_call l1 x) as [c1|e]; [|reflexivity].
  cbn [mbind result_bind]. unfold lift.
  destruct (F.max_pool2d c1 2) as [p1|e]; [|reflexivity].
  cbn [mbind result_bind mret M_ret]. simpl_state.
  (* x = F.relu(F.max_pool2d(self.conv2(x), 2)) *)
  rewrite exec_suite_cons, exec_Assign.
  unfold tensor_value at 1, relu at 1, max_pool2d at 1. rewrite !bind_run.
  rewrite call_layer_local with (t := F.relu p1) by reflexivity. simpl_state.
  destruct (nn.get_layer m "conv2") as [l2|e]; [|reflexivity].
  cbn [mbind result_bind].
  destruct (nn.layer_call l2 (F.relu p1)) as [c2|e]; [|reflexivity].
  cbn [mbind result_bind]. unfold lift.
  destruct (F.max_pool2d c2 2) as [p2|e]; [|reflexivity].
  cbn [mbind result_bind mret M_ret]. simpl_state.
  (* x = x.view(-1, 320) *)
  rewrite exec_suite_cons, exec_Assign.
  unfold tensor_value at 1, view at 1. rewrite !bind_run.
  rewrite load_tensor_local with (t := F.relu p2) by reflexivity.
  unfold lift.
  destruct (view_rows (F.relu p2) 320) as [v|e]; [|reflexivity].
  cbn [mbind result_bind mret M_ret]. simpl_state.
  (* x = F.relu(self.fc1(x)) *)
  rewrite exec_suite_cons, exec_Assign.
  unfold tensor_value at 1, relu at 1. rewrite !bind_run.
  rewrite call_layer_local with (t := v) by reflexivity. simpl_state.
  destruct (nn.get_layer m "fc1") as [l3|e]; [|reflexivity].
  cbn [mbind result_bind].
  destruct (nn.layer_call l3 v) as [h|e]; [|reflexivity].
  cbn [mbind result_bind mret M_ret]. simpl_state.
  (* x = F.dropout(x, training=self.training) *)
  rewrite exec_suite_cons, exec_Assign.
  unfold tensor_value at 1, dropout at 1. rewrite !bind_run.
  rewrite load_tensor_local with (t := F.relu h) by reflexivity.
  unfold get_training. rewrite !bind_run.
  rewrite load_local with (v := VModel) by reflexivity. simpl_state.
  cbn [mret M_ret].
  (* x = self.fc2(x); return x *)
  destruct (nn.training m); simpl_state;
    rewrite exec_suite_cons, exec_Assign;
    unfold tensor_value at 1; rewrite !bind_run;
    (rewrite call_layer_local with (t := F.dropout (F.relu h) _ r) by reflexivity);
    simpl_state;
    (destruct (nn.get_layer m "fc2") as [l4|e]; [|reflexivity]);
    cbn [mbind result_bind];
    (destruct (nn.layer_call l4 _) as [y|e]; [|reflexivity]);
    cbn [mret M_ret result_ret]; simpl_state;
    rewrite exec_suite_cons, exec_Return;
    (rewrite load_local with (v := VTensor y) by reflexivity);
    reflexivity.
Qed.


Lemma conv2d_rejects (x w b : Tensor) (n c h wd o c' k : nat) :
  shape x = [n; c; h; wd] -> shape w = [o; c'; k; k] ->
  c <> c' \/ h < k \/ wd < k ->
  F.conv2d x w b = Raise (RuntimeError "conv2d: sizes do not match").
Proof.
  intros Hx Hw H. unfold F.conv2d. rewrite Hx, Hw.
  destruct (Nat.eqb_spec c c'), (Nat.leb_spec 1 k), (Nat.leb_spec k h), (Nat.leb_spec k wd);
    cbn [andb]; try reflexivity; lia.
Qed.

Lemma max_pool2d_rejects (x : Tensor) (n c h wd k : nat) :
  shape x = [n; c; h; wd] -> h < k \/ wd < k ->
  F.max_pool2d x k = Raise (RuntimeError "max_pool2d: output size is too small").
Proof.
  intros Hx H. unfold F.max_pool2d. rewrite Hx.
  destruct (Nat.leb_spec 1 k), (Nat.leb_spec k h), (Nat.leb_spec k wd);
    cbn [andb]; try reflexivity; lia.
Qed.

Lemma view_rows_rejects (x : Tensor) (cols : nat) :
  numel (shape x) mod cols <> 0 ->
  view_rows x cols = Raise (RuntimeError "shape is invalid for input size").
Proof.
  intros H. unfold view_rows.
  destruct (Nat.eqb_spec (numel (shape x) mod cols) 0) as [E|_]; [contradiction|].
  now rewrite andb_false_r.
Qed.

Lemma half_bounds (a : nat) : 2 * (a / 2) <= a < 2 * (a / 2) + 2.
Proof.
  pose proof (Nat.div_mod_eq a 2). pose proof (Nat.mod_upper_bound a 2). lia.
Qed.

(** X7.  Which batches of images forward accepts.  For a non-empty input of
    shape [n; c; h; w], forward returns exactly when there is one channel, both
    sides of the image are at least 16, and the n * 20 * h2 * w2 numbers
    left after the two stages of convolution and pooling (h2 and w2 being
    the side lengths left, h2 = ((h - 4) / 2 - 4) / 2) fill rows of 320; it
    then returns that many rows of 10 logits, which are n rows only when
    h2 * w2 = 16, as for 28 by 28 images.  In every other case forward
    raises RuntimeError and leaves the state as it was. *)
Theorem Net_forward_accepted_inputs (s : state) (x : Tensor) (n c h w : nat) :
  initialised (model_obj s) = true ->
  shape x = [n; c; h; w] -> 0 < n ->
  let h2 := ((h - 4) / 2 - 4) / 2 in
  let w2 := ((w - 4) / 2 - 4) / 2 in
  let total := n * 20 * h2 * w2 in
  if (c =? 1) && (16 <=? h) && (16 <=? w) && (total mod 320 =? 0)
  then exists y,
         fst (call Net.forward [VModel; VTensor x] s) = Ok (VTensor y)
         /\ shape y = [total / 320; 10] /\ well_formed y
  else exists what,
         call Net.forward [VModel; VTensor x] s = (Raise (RuntimeError what), s).
Proof.
  intros Hi Hx Hn h2 w2 total.
  pose proof (half_bounds (h - 5 + 1 - 2)) as Bh1.
  pose proof (half_bounds (w - 5 + 1 - 2)) as Bw1.
  pose proof (half_bounds (((h - 5 + 1 - 2) / 2 + 1) - 5 + 1 - 2)) as Bh2.
  pose proof (half_bounds (((w - 5 + 1 - 2) / 2 + 1) - 5 + 1 - 2)) as Bw2.
  pose proof (half_bounds (h - 4)) as Bh3.
  pose proof (half_bounds (w - 4)) as Bw3.
  pose proof (half_bounds ((h - 4) / 2 - 4)) as Bh4.
  pose proof (half_bounds ((w - 4) / 2 - 4)) as Bw4.
  apply Net_initialised_inv in Hi as (H1 & H2 & H3 & H4).
  apply has_conv2d_get in H1 as (ci1 & co1 & k1 & w1 & b1 & G1 & Hw1 & Hb1).
  apply has_conv2d_get in H2 as (ci2 & co2 & k2 & w2' & b2 & G2 & Hw2 & Hb2).
  apply has_linear_get in H3 as (i3 & o3 & w3 & b3 & G3 & Hw3 & Hb3).
  apply has_linear_get in H4 as (i4 & o4 & w4 & b4 & G4 & Hw4 & Hb4).
  rewrite Net_forward_unfold, G1, G2, G3, G4. cbn [mbind result_bind nn.layer_call].
  (* conv1 *)
  destruct (Nat.eq_dec c 1) as [->|Hc].
  2:{ rewrite (conv2d_rejects x w1 b1 n c h w 10 1 5 Hx Hw1) by lia.
      destruct (Nat.eqb_spec c 1) as [E|_]; [contradiction|]. cbn [andb].
      eexists; reflexivity. }
  rewrite Nat.eqb_refl. cbn [andb].
  destruct (le_lt_dec 5 h) as [Hh5|Hh5].
  2:{ rewrite (conv2d_rejects x w1 b1 n 1 h w 10 1 5 Hx Hw1) by lia.
      destruct (Nat.leb_spec 16 h); [lia|]. cbn [andb]. eexists; reflexivity. }
  destruct (le_lt_dec 5 w) as [Hw5|Hw5].
  2:{ rewrite (conv2d_rejects x w1 b1 n 1 h w 10 1 5 Hx Hw1) by lia.
      destruct (Nat.leb_spec 16 w); [lia|]. rewrite andb_false_r. cbn [andb].
      eexists; reflexivity. }
  destruct (conv2d_shape x w1 b1 n 1 h w 10 5 Hx Hw1 Hb1) as (c1 & Hc1 & Hsc1 & _);
    [lia..|].
  rewrite Hc1. cbn [mbind result_bind].
  (* first pooling *)
  destruct (le_lt_dec 2 (h - 5 + 1)) as [Ha|Ha].
  2:{ rewrite (max_pool2d_rejects c1 n 10 _ _ 2 Hsc1) by lia.
      destruct (Nat.leb_spec 16 h); [lia|]. cbn [andb]. eexists; reflexivity. }
  destruct (le_lt_dec 2 (w - 5 + 1)) as [Hb|Hb].
  2:{ rewrite (max_pool2d_rejects c1 n 10 _ _ 2 Hsc1) by lia.
      destruct (Nat.leb_spec 16 w); [lia|]. rewrite andb_false_r. cbn [andb].
      eexists; reflexivity. }
  destruct (max_pool2d_shape c1 n 10 _ _ 2 Hsc1) as (p1 & Hp1 & Hsp1 & _); [lia..|].
  rewrite Hp1. cbn [mbind result_bind].
  rewrite <- (relu_shape p1) in Hsp1.
  (* conv2 *)
  destruct (le_lt_dec 5 ((h - 5 + 1 - 2) / 2 + 1)) as [Hha|Hha].
  2:{ rewrite (conv2d_rejects (F.relu p1) w2' b2 n 10 _ _ 20 10 5 Hsp1 Hw2) by lia.
      destruct (Nat.leb_spec 16 h); [lia|]. cbn [andb]. eexists; reflexivity. }
  destruct (le_lt_dec 5 ((w - 5 + 1 - 2) / 2 + 1)) as [Hwa|Hwa].
  2:{ rewrite (conv2d_rejects (F.relu p1) w2' b2 n 10 _ _ 20 10 5 Hsp1 Hw2) by lia.
      destruct (Nat.leb_spec 16 w); [lia|]. rewrite andb_false_r. cbn [andb].
      eexists; reflexivity. }
  destruct (conv2d_shape (F.relu p1) w2' b2 n 10 _ _ 20 5 Hsp1 Hw2 Hb2)
    as (c2 & Hc2 & Hsc2 & _); [lia..|].
  rewrite Hc2. cbn [mbind result_bind].
  (* second pooling *)
  destruct (le_lt_dec 2 (((h - 5 + 1 - 2) / 2 + 1) - 5 + 1)) as [Hhb|Hhb].
  2:{ rewrite (max_pool2d_rejects c2 n 20 _ _ 2 Hsc2) by lia.
      destruct (Nat.leb_spec 16 h); [lia|]. cbn [andb]. eexists; reflexivity. }
  destruct (le_lt_dec 2 (((w - 5 + 1 - 2) / 2 + 1) - 5 + 1)) as [Hwb|Hwb].
  2:{ rewrite (max_pool2d_rejects c2 n 20 _ _ 2 Hsc2) by lia.
      destruct (Nat.leb_spec 16 w); [lia|]. rewrite andb_false_r. cbn [andb].
      eexists; reflexivity. }
  destruct (max_pool2d_shape c2 n 20 _ _ 2 Hsc2) as (p2 & Hp2 & Hsp2 & _); [lia..|].
  rewrite Hp2. cbn [mbind result_bind].
  (* the sizes left *)
  assert (Eh : (((h - 5 + 1 - 2) / 2 + 1) - 5 + 1 - 2) / 2 + 1 = h2) by (subst h2; lia).
  assert (Ew : (((w - 5 + 1 - 2) / 2 + 1) - 5 + 1 - 2) / 2 + 1 = w2) by (subst w2; lia).
  rewrite Eh, Ew in Hsp2.
  destruct (Nat.leb_spec 16 h) as [_|Hlt]; [|lia].
  destruct (Nat.leb_spec 16 w) as [_|Hlt]; [|lia].
  cbn [andb].
  assert (Hnum : numel (shape (F.relu p2)) = total).
  { rewrite relu_shape, Hsp2. subst total. cbn [numel fold_right]. lia. }
  (* view *)
  destruct (Nat.eqb_spec (total mod 320) 0) as [Hmod|Hmod].
  2:{ rewrite view_rows_rejects by (now rewrite Hnum). eexists; reflexivity. }
  destruct (view_rows_shape (F.relu p2) (total / 320) 320) as (v & Hv & Hsv & _); [lia| |].
  { rewrite Hnum. pose proof (Nat.div_mod_eq total 320). lia. }
  rewrite Hv. cbn [mbind result_bind].
  destruct (linear_shape v w3 b3 [total / 320] 320 50 Hw3 Hb3 Hsv) as (hh & Hh & Hsh & _).
  rewrite Hh. cbn [mbind result_bind].
  assert (Hsd : shape (F.dropout (F.relu hh) (nn.training (model_obj s)) (rng s))
                = [total / 320] ++ [50]) by (now rewrite dropout_shape, relu_shape).
  destruct (linear_shape _ w4 b4 [total / 320] 50 10 Hw4 Hb4 Hsd) as (y & Hy & Hsy & Hwy).
  rewrite Hy. exists y. split; [reflexivity|]. split; assumption.
Qed.

Lemma Net_forward_accepted_inputs_witness :
  (exists y,
     fst (call Net.forward [VModel; VTensor (zeros [2; 1; 28; 52])] started) = Ok (VTensor y)
     /\ shape y = [5; 10])
  /\ (exists what,
        call Net.forward [VModel; VTensor (zeros [2; 1; 28; 32])] started
        = (Raise (RuntimeError what), started)).
Proof.
  split.
  - destruct (Net_forward_accepted_inputs started (zeros [2; 1; 28; 52]) 2 1 28 52
                eq_refl eq_refl ltac:(lia)) as (y & Hy & Hs & _).
    exists y. split; [exact Hy|exact Hs].
  - exact (Net_forward_accepted_inputs started (zeros [2; 1; 28; 32]) 2 1 28 32
             eq_refl eq_refl ltac:(lia)).
Defined.

End Net_forward_inputs.

(** ** [Net.forward] in evaluation mode *)

Section Net_forward_modes.
Import torch Py Calls AutodiffNnBasics.

Lemma model_obj_with_rng (r : nat -> R) (s : state) :
  model_obj (TensorCalls.with_rng r s) = model_obj s.
Proof. reflexivity. Qed.

(** X8.  In evaluation mode forward is a function of the parameters and the
    input: whatever the input, the call leaves the whole state as it was,
    and its result (or the error it raises) does not depend on the random
    generator. *)
Theorem Net_forward_eval_mode_is_deterministic (s : state) (x : Tensor) :
  nn.training (model_obj s) = false ->
  snd (call Net.forward [VModel; VTensor x] s) = s
  /\ forall r, fst (call Net.forward [VModel; VTensor x] (TensorCalls.with_rng r s))
               = fst (call Net.forward [VModel; VTensor x] s).
Proof.
  intros Ht. split.
  - rewrite Net_forward_unfold, Ht.
    match goal with |- context [match ?e with Ok _ => _ | Raise _ => _ end] =>
      destruct e as [hr|e'] end; reflexivity.
  - intros r. rewrite !Net_forward_unfold, model_obj_with_rng, Ht.
    match goal with |- context [match ?e with Ok _ => _ | Raise _ => _ end] =>
      destruct e as [hr|e'] end; reflexivity.
Qed.

Lemma Net_forward_eval_mode_is_deterministic_witness :
  snd (call Net.forward [VModel; VTensor (zeros [2; 1; 28; 28])] started) = started
  /\ forall r, fst (call Net.forward [VModel; VTensor (zeros [2; 1; 28; 28])]
                      (TensorCalls.with_rng r started))
               = fst (call Net.forward [VModel; VTensor (zeros [2; 1; 28; 28])] started).
Proof.
  apply (Net_forward_eval_mode_is_deterministic started (zeros [2; 1; 28; 28])).
  reflexivity.
Defined.

End Net_forward_modes.

(** ** Broadcasting of elementwise operations *)

Section Broadcasting.
Import torch.

Lemma numel_rev (s : list nat) : numel (rev s) = numel s.
Proof.
  induction s as [|d s IH]; [reflexivity|].
  cbn [rev]. rewrite numel_app, IH.
  change (numel [d]) with (d * 1). change (numel (d :: s)) with (d * numel s). lia.
Qed.

Lemma broadcast_rev_same (s : list nat) : TensorOps.broadcast_rev s s = Ok s.
Proof.
  induction s as [|d s IH]; [reflexivity|].
  cbn [TensorOps.broadcast_rev]. rewrite Nat.eqb_refl, IH. reflexivity.
Qed.

Lemma broadcast_shapes_same (s : list nat) : TensorOps.broadcast_shapes s s = Ok s.
Proof.
  unfold TensorOps.broadcast_shapes. rewrite broadcast_rev_same.
  cbn [mbind result_bind]. now rewrite rev_involutive.
Qed.

(** In a tensor of the shape of the result, a position reads itself. *)
Lemma ravel_unravel (s_rev : list nat) (k : nat) :
  k < numel s_rev -> TensorOps.ravel_rev s_rev (TensorOps.unravel_rev s_rev k) = k.
Proof.
  revert k. induction s_rev as [|d r IH]; intros k Hk; cbn [numel fold_right] in Hk.
  - cbn. lia.
  - cbn [TensorOps.unravel_rev TensorOps.ravel_rev].
    assert (Hd : d <> 0) by (intros ->; lia).
    rewrite IH.
    + destruct (Nat.eqb_spec d 1) as [->|Hne].
      * rewrite Nat.div_1_r. lia.
      * pose proof (Nat.div_mod_eq k d). lia.
    + apply Nat.Div0.div_lt_upper_bound. exact Hk.
Qed.

Lemma broadcast_op_same_shape (op : R -> R -> R) (a b : Tensor) :
  shape a = shape b ->
  TensorOps.broadcast_op op a b
  = Ok (mkTensor (shape a) (map (fun k => op (item a k) (item b k)) (seq 0 (numel (shape a))))).
Proof.
  intros Hs. unfold TensorOps.broadcast_op. rewrite <- Hs, broadcast_shapes_same.
  cbn [mbind result_bind]. do 2 f_equal. apply map_ext_in. intros k Hk.
  apply in_seq in Hk. cbn zeta.
  rewrite ravel_unravel by (rewrite numel_rev; lia). reflexivity.
Qed.

End Broadcasting.

(** ** The function [f] of the autograd example *)

Section Function_f.
Import torch Py Calls AutodiffBasics.

Lemma f_unfold (s : state) (x : Tensor) :
  call f [VTensor x] s =
  (a ← TensorOps.select x 0;
   b ← TensorOps.select x 1;
   y ← TensorOps.add (TensorOps.log a) (TensorOps.sin b);
   c ← TensorOps.select x 2;
   r ← TensorOps.mul c (TensorOps.exp y);
   mret (VTensor r), s).
Proof.
  destruct s as [l g m ge r0].
  unfold call.
  change (def_ok f) with true. cbv iota.
  change (bind_params (def_params f) [VTensor x])
    with (Some (list_to_map [("x", VTensor x)] : gmap string value)).
  cbv iota. simpl def_body.
  rewrite exec_suite_cons, exec_Assign.
  unfold tensor_value at 1, TensorCalls.add, TensorCalls.log, TensorCalls.sin,
    TensorCalls.getitem, lift.
  rewrite !bind_run.
  rewrite load_tensor_local with (t := x) by reflexivity.
  destruct (TensorOps.select x 0) as [a|e]; [|reflexivity].
  cbn [mbind result_bind mret M_ret].
  rewrite !bind_run.
  rewrite load_tensor_local with (t := x) by reflexivity.
  destruct (TensorOps.select x 1) as [b|e]; [|reflexivity].
  cbn [mbind result_bind mret M_ret].
  destruct (TensorOps.add (TensorOps.log a) (TensorOps.sin b)) as [y|e]; [|reflexivity].
  cbn [mbind result_bind mret M_ret]. simpl_state.
  rewrite exec_suite_cons, exec_Return.
  unfold tensor_value, TensorCalls.mul, TensorCalls.exp, TensorCalls.getitem, lift.
  rewrite !bind_run.
  rewrite load_tensor_local with (t := x) by reflexivity.
  destruct (TensorOps.select x 2) as [c|e]; [|reflexivity].
  cbn [mbind result_bind mret M_ret].
  rewrite !bind_run.
  rewrite load_tensor_local with (t := y) by reflexivity.
  cbn [mbind result_bind mret M_ret].
  destruct (TensorOps.mul c (TensorOps.exp y)) as [r|e]; reflexivity.
Qed.

Lemma select_in_range (x : Tensor) (d k : nat) (rest : list nat) :
  shape x = d :: rest -> k < d ->
  TensorOps.select x k
  = Ok (mkTensor rest (map (fun j => item x (k * numel rest + j)) (seq 0 (numel rest)))).
Proof.
  intros Hs Hk. unfold TensorOps.select. rewrite Hs.
  now rewrite (proj2 (Nat.ltb_lt k d) Hk).
Qed.

Lemma select_out_of_range (x : Tensor) (d k : nat) (rest : list nat) :
  shape x = d :: rest -> d <= k ->
  TensorOps.select x k = Raise (TensorOps.IndexError "index is out of bounds for dimension 0").
Proof.
  intros Hs Hk. unfold TensorOps.select. rewrite Hs.
  now rewrite (proj2 (Nat.ltb_ge k d) Hk).
Qed.

Lemma item_map_seq (sh : list nat) (g : nat -> R) (n j : nat) :
  j < n -> item (mkTensor sh (map g (seq 0 n))) j = g j.
Proof.
  intros Hj. unfold item. cbn [data].
  rewrite (nth_indep _ 0%R (g 0)) by (now rewrite length_map, length_seq).
  rewrite (map_nth g). now rewrite seq_nth.
Qed.


Lemma item_pointwise_seq (sh : list nat) (h : R -> R) (g : nat -> R) (n j : nat) :
  j < n -> item (TensorOps.pointwise h (mkTensor sh (map g (seq 0 n)))) j = h (g j).
Proof.
  intros Hj. unfold TensorOps.pointwise. cbn [shape data].
  rewrite map_map. now rewrite item_map_seq.
Qed.

Lemma pointwise_map_seq (sh : list nat) (h : R -> R) (g : nat -> R) (n : nat) :
  TensorOps.pointwise h (mkTensor sh (map g (seq 0 n)))
  = mkTensor sh (map (fun j => h (g j)) (seq 0 n)).
Proof. unfold TensorOps.pointwise. cbn [shape data]. now rewrite map_map. Qed.

(** X10.  f(x) = x[2] * x[0] * exp(sin(x[1])), entry by entry, for every tensor
    with at least three slices along its first dimension whose first slice
    is positive; the interpreter state is as before. *)
Theorem f_returns_product (s : state) (x : Tensor) (d : nat) (rest : list nat) :
  shape x = d :: rest -> 3 <= d ->
  (forall j, j < numel rest -> (0 < item x j)%R) ->
  call f [VTensor x] s =
  (Ok (VTensor
         (mkTensor rest
            (map (fun j => (item x (2 * numel rest + j)
                            * (item x j * exp (Rtrigo_def.sin (item x (numel rest + j)))))%R)
                 (seq 0 (numel rest))))), s).
Proof.
  intros Hs Hd Hpos.
  rewrite f_unfold.
  rewrite !(select_in_range x d _ rest Hs) by lia.
  cbn [mbind result_bind mret result_ret].
  unfold TensorOps.add, TensorOps.mul, TensorOps.log, TensorOps.sin, TensorOps.exp.
  rewrite !pointwise_map_seq.
  rewrite broadcast_op_same_shape by reflexivity.
  cbn [mbind result_bind mret result_ret shape].
  rewrite pointwise_map_seq.
  rewrite broadcast_op_same_shape by reflexivity.
  cbn [mbind result_bind mret result_ret shape].
  do 4 f_equal.
  apply map_ext_in. intros j Hj. apply in_seq in Hj.
  rewrite !item_map_seq by lia.
  rewrite Nat.mul_0_l, Nat.mul_1_l, Nat.add_0_l.
  rewrite exp_plus, exp_ln by (apply Hpos; lia).
  reflexivity.
Qed.

Lemma f_returns_product_witness :
  call f [VTensor (TensorOps.vector [2; 3; 4]%R)] (initial_state ∅ (fun _ => 0%R))
  = (Ok (VTensor (mkTensor []
       (map (fun j => (item (TensorOps.vector [2; 3; 4]%R) (2 * numel [] + j)
                       * (item (TensorOps.vector [2; 3; 4]%R) j
                          * exp (Rtrigo_def.sin (item (TensorOps.vector [2; 3; 4]%R) (numel [] + j)))))%R)
            (seq 0 (numel []))))), initial_state ∅ (fun _ => 0%R)).
Proof.
  apply (f_returns_product (initial_state ∅ (fun _ => 0%R)) (TensorOps.vector [2; 3; 4]%R) 3 []).
  - reflexivity.
  - lia.
  - intros j Hj. cbn in Hj. assert (j = 0) as -> by lia. cbn. lra.
Defined.

(** X11.  With fewer than three slices along the first dimension, or with a
    0-dimensional argument, f raises IndexError and leaves the state as it
    was. *)
Theorem f_rejects_short_input (s : state) (x : Tensor) :
  match shape x with [] => True | d :: _ => d < 3 end ->
  exists what, call f [VTensor x] s = (Raise (TensorOps.IndexError what), s).
Proof.
  intros H. rewrite f_unfold.
  destruct (shape x) as [|d rest] eqn:Hs.
  - exists "invalid index of a 0-dim tensor".
    assert (E : forall k, TensorOps.select x k
                          = Raise (TensorOps.IndexError "invalid index of a 0-dim tensor"))
      by (intros k; unfold TensorOps.select; now rewrite Hs).
    rewrite !E. reflexivity.
  - exists "index is out of bounds for dimension 0".
    destruct d as [|[|[|d]]]; [| | |lia].
    + rewrite (select_out_of_range x 0 0 rest Hs) by lia. reflexivity.
    + rewrite (select_in_range x 1 0 rest Hs) by lia.
      rewrite (select_out_of_range x 1 1 rest Hs) by lia. reflexivity.
    + rewrite (select_in_range x 2 0 rest Hs), (select_in_range x 2 1 rest Hs) by lia.
      rewrite (select_out_of_range x 2 2 rest Hs) by lia.
      cbn [mbind result_bind mret result_ret].
      unfold TensorOps.add, TensorOps.log, TensorOps.sin.
      rewrite broadcast_op_same_shape by reflexivity.
      reflexivity.
Qed.

Lemma f_rejects_short_input_witness :
  exists what,
    call f [VTensor (TensorOps.vector [2; 3]%R)] (initial_state ∅ (fun _ => 0%R))
    = (Raise (TensorOps.IndexError what), initial_state ∅ (fun _ => 0%R)).
Proof.
  apply (f_rejects_short_input (initial_state ∅ (fun _ => 0%R)) (TensorOps.vector [2; 3]%R)).
  cbn. lia.
Defined.

End Function_f.

(** ** Its partial derivatives *)

Section Gradient_f.
Import torch Py Calls AutodiffBasics.

Lemma derivable_pt_lim_ext (g1 g2 : R -> R) (x l : R) :
  (forall t, g1 t = g2 t) -> derivable_pt_lim g2 x l -> derivable_pt_lim g1 x l.
Proof.
  intros E H eps Heps. destruct (H eps Heps) as [delta Hd].
  exists delta. intros h Hh Hlt. rewrite !E. now apply Hd.
Qed.

Lemma f_of_three (s : state) (a b c : R) :
  TensorCalls.scalar_of (fst (call f [VTensor (TensorOps.vector [a; b; c])] s))
  = (c * exp (ln a + Rtrigo_def.sin b))%R.
Proof. rewrite f_unfold. reflexivity. Qed.

(** X12.  The function that f computes on a vector of three real numbers
    (x0, x1, x2) is differentiable in each of them at every point with
    x0 > 0, with partial derivatives x2 * exp(sin x1) in x0,
    x2 * x0 * cos(x1) * exp(sin x1) in x1, and x0 * exp(sin x1) in x2.
    (Automatic differentiation itself, backward() and x.grad, is not
    modelled.) *)
Theorem f_partial_derivatives (s : state) (x0 x1 x2 : R) :
  (0 < x0)%R ->
  derivable_pt_lim
    (fun t => TensorCalls.scalar_of (fst (call f [VTensor (TensorOps.vector [t; x1; x2])] s)))
    x0 (x2 * exp (Rtrigo_def.sin x1))%R
  /\ derivable_pt_lim
       (fun t => TensorCalls.scalar_of (fst (call f [VTensor (TensorOps.vector [x0; t; x2])] s)))
       x1 (x2 * x0 * cos x1 * exp (Rtrigo_def.sin x1))%R
  /\ derivable_pt_lim
       (fun t => TensorCalls.scalar_of (fst (call f [VTensor (TensorOps.vector [x0; x1; t])] s)))
       x2 (x0 * exp (Rtrigo_def.sin x1))%R.
Proof.
  intros Hpos.
  assert (E : exp (ln x0 + Rtrigo_def.sin x1) = (x0 * exp (Rtrigo_def.sin x1))%R)
    by (now rewrite exp_plus, exp_ln).
  repeat split.
  - apply derivable_pt_lim_ext
      with (g2 := mult_real_fct x2 (comp exp (plus_fct ln (fct_cte (Rtrigo_def.sin x1))))).
    { intros t. now rewrite f_of_three. }
    replace (x2 * exp (Rtrigo_def.sin x1))%R
      with (x2 * (exp (ln x0 + Rtrigo_def.sin x1) * (/ x0 + 0)))%R
      by (rewrite E; field; lra).
    apply derivable_pt_lim_scal.
    apply (derivable_pt_lim_comp (plus_fct ln (fct_cte (Rtrigo_def.sin x1))) exp).
    + apply derivable_pt_lim_plus.
      * now apply derivable_pt_lim_ln.
      * apply derivable_pt_lim_const.
    + apply derivable_pt_lim_exp.
  - apply derivable_pt_lim_ext
      with (g2 := mult_real_fct x2 (comp exp (plus_fct (fct_cte (ln x0)) Rtrigo_def.sin))).
    { intros t. now rewrite f_of_three. }
    replace (x2 * x0 * cos x1 * exp (Rtrigo_def.sin x1))%R
      with (x2 * (exp (ln x0 + Rtrigo_def.sin x1) * (0 + cos x1)))%R
      by (rewrite E; ring).
    apply derivable_pt_lim_scal.
    apply (derivable_pt_lim_comp (plus_fct (fct_cte (ln x0)) Rtrigo_def.sin) exp).
    + apply derivable_pt_lim_plus.
      * apply derivable_pt_lim_const.
      * apply derivable_pt_lim_sin.
    + apply derivable_pt_lim_exp.
  - apply derivable_pt_lim_ext
      with (g2 := mult_fct id (fct_cte (exp (ln x0 + Rtrigo_def.sin x1)))).
    { intros t. now rewrite f_of_three. }
    replace (x0 * exp (Rtrigo_def.sin x1))%R
      with (1 * fct_cte (exp (ln x0 + Rtrigo_def.sin x1)) x2
            + id x2 * 0)%R
      by (unfold fct_cte, id; rewrite E; ring).
    apply derivable_pt_lim_mult.
    + apply derivable_pt_lim_id.
    + apply derivable_pt_lim_const.
Qed.

Lemma f_partial_derivatives_witness :
  derivable_pt_lim
    (fun t => TensorCalls.scalar_of
                (fst (call f [VTensor (TensorOps.vector [t; 3; 4]%R)]
                        (initial_state ∅ (fun _ => 0%R)))))
    2%R (4 * exp (Rtrigo_def.sin 3))%R
  /\ derivable_pt_lim
       (fun t => TensorCalls.scalar_of
                   (fst (call f [VTensor (TensorOps.vector [2; t; 4]%R)]
                           (initial_state ∅ (fun _ => 0%R)))))
       3%R (4 * 2 * cos 3 * exp (Rtrigo_def.sin 3))%R
  /\ derivable_pt_lim
       (fun t => TensorCalls.scalar_of
                   (fst (call f [VTensor (TensorOps.vector [2; 3; t]%R)]
                           (initial_state ∅ (fun _ => 0%R)))))
       4%R (2 * exp (Rtrigo_def.sin 3))%R.
Proof.
  apply (f_partial_derivatives (initial_state ∅ (fun _ => 0%R)) 2%R 3%R 4%R). lra.
Defined.

End Gradient_f.

(** ** One layer: [run_layer] *)

Section Layer_and_loss.
Import torch Py Calls AutodiffBasics.

Lemma run_layer_unfold (s : state) (w x : Tensor) :
  call run_layer [VTensor w; VTensor x] s =
  (o ← TensorOps.mm w x; mret (VTensor (TensorOps.tanh o)), s).
Proof.
  destruct s as [l g m ge r0].
  unfold call.
  change (def_ok run_layer) with true. cbv iota.
  change (bind_params (def_params run_layer) [VTensor w; VTensor x])
    with (Some (list_to_map [("weights", VTensor w); ("inputs", VTensor x)]
                : gmap string value)).
  cbv iota. simpl def_body.
  rewrite exec_suite_cons, exec_Assign.
  unfold tensor_value at 1, TensorCalls.mm, lift.
  rewrite !bind_run.
  rewrite load_tensor_local with (t := w) by reflexivity.
  rewrite !bind_run.
  rewrite load_tensor_local with (t := x) by reflexivity.
  destruct (TensorOps.mm w x) as [o|e]; [|reflexivity].
  cbn [mbind result_bind mret M_ret]. simpl_state.
  rewrite exec_suite_cons, exec_Assign.
  unfold tensor_value at 1, TensorCalls.tanh.
  rewrite !bind_run.
  rewrite load_tensor_local with (t := o) by reflexivity.
  cbn [mbind result_bind mret M_ret]. simpl_state.
  rewrite exec_suite_cons, exec_Return.
  rewrite load_local with (v := VTensor (TensorOps.tanh o)) by reflexivity.
  reflexivity.
Qed.

Lemma tanh_bounds (x : R) : (-1 < Rtrigo_def.tanh x < 1)%R.
Proof.
  unfold Rtrigo_def.tanh, sinh, cosh.
  pose proof (exp_pos x) as Ha. pose proof (exp_pos (- x)) as Hb.
  set (a := exp x) in *. set (b := exp (- x)) in *.
  replace ((a - b) / 2 / ((a + b) / 2))%R with ((a - b) * / (a + b))%R by (field; lra).
  split.
  - apply Rmult_lt_reg_r with (a + b)%R; [lra|].
    rewrite Rmult_assoc, Rinv_l by lra. lra.
  - apply Rmult_lt_reg_r with (a + b)%R; [lra|].
    rewrite Rmult_assoc, Rinv_l by lra. lra.
Qed.

Lemma nth_map_tanh_bounds (l : list R) (k : nat) :
  (-1 < nth k (map Rtrigo_def.tanh l) 0 < 1)%R.
Proof.
  destruct (Nat.lt_ge_cases k (length l)) as [Hk|Hk].
  - rewrite (nth_indep _ 0%R (Rtrigo_def.tanh 0)) by (now rewrite length_map).
    rewrite map_nth. apply tanh_bounds.
  - rewrite nth_overflow by (now rewrite length_map). lra.
Qed.

(** X13.  run_layer(weights, inputs), for an n-by-m weight matrix and an m-by-p
    input matrix, returns an n-by-p matrix whose element (i, j) is the
    hyperbolic tangent of the dot product of row i of the weights with
    column j of the inputs; every output lies between -1 and 1, and the
    interpreter state is as before. *)
Theorem run_layer_outputs (s : state) (w x : Tensor) (n m p : nat) :
  shape w = [n; m] -> shape x = [m; p] ->
  exists out,
    call run_layer [VTensor w; VTensor x] s = (Ok (VTensor out), s)
    /\ shape out = [n; p] /\ well_formed out
    /\ (forall i j, i < n -> j < p ->
          item out (i * p + j)
          = Rtrigo_def.tanh (sum_over m (fun k => item w (i * m + k) * item x (k * p + j)))%R)
    /\ (forall k, (-1 <= item out k <= 1)%R).
Proof.
  intros Hw Hx. rewrite run_layer_unfold.
  unfold TensorOps.mm. rewrite Hw, Hx, Nat.eqb_refl.
  cbn [mbind result_bind mret result_ret].
  eexists. split; [reflexivity|].
  unfold TensorOps.tanh, TensorOps.pointwise. cbn [shape data].
  split; [reflexivity|]. split; [|split].
  - unfold well_formed. cbn [shape data numel fold_right].
    rewrite length_map, (length_flat_map_const _ p).
    + rewrite length_seq. lia.
    + intros a. now rewrite length_map, length_seq.
  - intros i j Hi Hj. unfold item at 1. cbn [data].
    rewrite (nth_indep _ 0%R (Rtrigo_def.tanh 0)).
    2:{ rewrite length_map, (length_flat_map_const _ p).
        - rewrite length_seq. nia.
        - intros a. now rewrite length_map, length_seq. }
    rewrite map_nth. f_equal.
    rewrite (nth_flat_map_const _ p _ i j 0 0%R).
    + rewrite seq_nth by assumption. cbn [Nat.add].
      rewrite (nth_indep _ 0%R
                 (sum_over m (fun k => item w (i * m + k) * item x (k * p + 0)))%R)
        by (now rewrite length_map, length_seq).
      rewrite (map_nth (fun j0 =>
                 sum_over m (fun k => item w (i * m + k) * item x (k * p + j0))%R)).
      now rewrite seq_nth.
    + intros a. now rewrite length_map, length_seq.
    + now rewrite length_seq.
    + assumption.
  - intros k. unfold item. cbn [data].
    match goal with |- context [nth k (map Rtrigo_def.tanh ?l) _] =>
      pose proof (nth_map_tanh_bounds l k) end.
    lra.
Qed.

Lemma run_layer_outputs_witness :
  exists out,
    call run_layer [VTensor (mkTensor [2; 4] [1; 0; 0; 0; 0; 1; 0; 0]%R);
                    VTensor (mkTensor [4; 1] [1; 2; 3; 4]%R)]
      (initial_state ∅ (fun _ => 0%R))
    = (Ok (VTensor out), initial_state ∅ (fun _ => 0%R))
    /\ shape out = [2; 1] /\ well_formed out
    /\ (forall i j, i < 2 -> j < 1 ->
          item out (i * 1 + j)
          = Rtrigo_def.tanh
              (sum_over 4 (fun k =>
                 Rmult (item (mkTensor [2; 4] [1; 0; 0; 0; 0; 1; 0; 0]%R) (i * 4 + k))
                       (item (mkTensor [4; 1] [1; 2; 3; 4]%R) (k * 1 + j)))))
    /\ (forall k, (-1 <= item out k <= 1)%R).
Proof.
  apply (run_layer_outputs (initial_state ∅ (fun _ => 0%R))
           (mkTensor [2; 4] [1; 0; 0; 0; 0; 1; 0; 0]%R)
           (mkTensor [4; 1] [1; 2; 3; 4]%R) 2 4 1); reflexivity.
Defined.

(** X14.  run_layer raises RuntimeError, and leaves the state as it was, whenever
    its arguments are not two matrices whose inner dimensions agree; a
    1-dimensional input vector is rejected. *)
Theorem run_layer_rejects (s : state) (w x : Tensor) :
  match shape w, shape x with
  | [_; m], [m'; _] => m <> m'
  | _, _ => True
  end ->
  exists what, call run_layer [VTensor w; VTensor x] s = (Raise (RuntimeError what), s).
Proof.
  intros H. rewrite run_layer_unfold. unfold TensorOps.mm.
  destruct (shape w) as [|n [|m [|? ?]]]; try (eexists; reflexivity).
  destruct (shape x) as [|m' [|p [|? ?]]]; try (eexists; reflexivity).
  destruct (Nat.eqb_spec m m') as [E|E]; [contradiction|].
  eexists; reflexivity.
Qed.

Lemma run_layer_rejects_witness :
  exists what,
    call run_layer [VTensor (mkTensor [2; 4] [1; 0; 0; 0; 0; 1; 0; 0]%R);
                    VTensor (TensorOps.vector [1; 2; 3; 4]%R)]
      (initial_state ∅ (fun _ => 0%R))
    = (Raise (RuntimeError what), initial_state ∅ (fun _ => 0%R)).
Proof.
  apply (run_layer_rejects (initial_state ∅ (fun _ => 0%R))
           (mkTensor [2; 4] [1; 0; 0; 0; 0; 1; 0; 0]%R)
           (TensorOps.vector [1; 2; 3; 4]%R)).
  simpl. exact I.
Defined.

End Layer_and_loss.

(** ** The squared-error [loss] *)

Section Loss.
Import torch Py Calls AutodiffBasics.

Lemma loss_unfold (s : state) (o t : Tensor) :
  call loss [VTensor o; VTensor t] s =
  (d ← TensorOps.sub o t; mret (VTensor (TensorOps.mean (TensorOps.pow d 2))), s).
Proof.
  destruct s as [l g m ge r0].
  unfold call.
  change (def_ok loss) with true. cbv iota.
  change (bind_params (def_params loss) [VTensor o; VTensor t])
    with (Some (list_to_map [("outputs", VTensor o); ("targets", VTensor t)]
                : gmap string value)).
  cbv iota. simpl def_body.
  rewrite exec_suite_cons, exec_Return.
  unfold tensor_value, TensorCalls.mean, TensorCalls.pow, TensorCalls.sub, lift.
  rewrite !bind_run.
  rewrite load_tensor_local with (t := o) by reflexivity.
  rewrite !bind_run.
  rewrite load_tensor_local with (t := t) by reflexivity.
  destruct (TensorOps.sub o t) as [d|e]; reflexivity.
Qed.

Lemma broadcast_rev_comm (s1 s2 : list nat) :
  TensorOps.broadcast_rev s1 s2 = TensorOps.broadcast_rev s2 s1.
Proof.
  revert s2. induction s1 as [|d1 r1 IH]; intros [|d2 r2]; try reflexivity.
  cbn [TensorOps.broadcast_rev]. rewrite (IH r2).
  destruct (Nat.eqb_spec d1 d2) as [->|Hne].
  - now rewrite Nat.eqb_refl.
  - destruct (Nat.eqb_spec d2 d1) as [E|_]; [congruence|].
    destruct (Nat.eqb_spec d1 1) as [->|H1], (Nat.eqb_spec d2 1) as [->|H2];
      try reflexivity; congruence.
Qed.

Lemma square_minus_comm (a b : R) : ((a - b) ^ 2 = (b - a) ^ 2)%R.
Proof. ring. Qed.

(** X15.  loss(outputs, targets) = loss(targets, outputs) for all tensors, also
    when the subtraction broadcasts or fails. *)
Theorem loss_symmetric (s : state) (outputs targets : Tensor) :
  call loss [VTensor outputs; VTensor targets] s
  = call loss [VTensor targets; VTensor outputs] s.
Proof.
  rewrite !loss_unfold. f_equal.
  unfold TensorOps.sub, TensorOps.broadcast_op, TensorOps.broadcast_shapes.
  rewrite (broadcast_rev_comm (rev (shape targets))).
  destruct (TensorOps.broadcast_rev (rev (shape outputs)) (rev (shape targets)))
    as [r|e]; [|reflexivity].
  cbn [mbind result_bind mret result_ret].
  unfold TensorOps.mean, TensorOps.pow, TensorOps.pointwise. cbn [shape data].
  rewrite !map_map, !length_map.
  do 5 f_equal.
  apply map_ext. intros k. cbn zeta. apply square_minus_comm.
Qed.


Lemma sum_squares_nonneg (g : nat -> R) (l : list nat) :
  (0 <= fold_right Rplus 0 (map (fun k => g k ^ 2) l))%R.
Proof.
  induction l as [|k l IH]; cbn [map fold_right]; [lra|].
  pose proof (pow2_ge_0 (g k)). lra.
Qed.

Lemma sum_squares_zero (g : nat -> R) (l : list nat) :
  fold_right Rplus 0%R (map (fun k => (g k ^ 2)%R) l) = 0%R ->
  forall k, In k l -> g k = 0%R.
Proof.
  induction l as [|a l IH]; cbn [map fold_right]; intros H k Hk; [destruct Hk|].
  pose proof (pow2_ge_0 (g a)) as Ha.
  pose proof (sum_squares_nonneg g l) as Hl.
  destruct Hk as [<-|Hk].
  - assert (E : (g a ^ 2 = 0)%R) by lra.
    replace (g a ^ 2)%R with (g a * g a)%R in E by ring.
    now apply Rmult_integral in E as [E|E].
  - apply IH; [lra|assumption].
Qed.

Lemma loss_same_shape (s : state) (o t : Tensor) :
  shape o = shape t ->
  call loss [VTensor o; VTensor t] s =
  (Ok (VTensor (TensorOps.scalar
         (fold_right Rplus 0 (map (fun k => (item o k - item t k) ^ 2) (seq 0 (numel (shape o))))
          / INR (numel (shape o)))%R)), s).
Proof.
  intros Hs. rewrite loss_unfold. unfold TensorOps.sub.
  rewrite broadcast_op_same_shape by assumption.
  cbn [mbind result_bind mret result_ret].
  unfold TensorOps.mean, TensorOps.pow, TensorOps.pointwise. cbn [shape data].
  now rewrite map_map, !length_map, length_seq.
Qed.

(** X16.  For two well-formed, non-empty tensors of the same shape, loss returns a
    0-dimensional tensor holding a number that is never negative and is
    zero exactly when the two tensors are equal. *)
Theorem loss_zero_iff_equal (s : state) (outputs targets : Tensor) :
  shape outputs = shape targets ->
  well_formed outputs -> well_formed targets ->
  0 < numel (shape outputs) ->
  exists v,
    call loss [VTensor outputs; VTensor targets] s = (Ok (VTensor (TensorOps.scalar v)), s)
    /\ (0 <= v)%R
    /\ (v = 0%R <-> outputs = targets).
Proof.
  intros Hs Ho Ht Hn. rewrite (loss_same_shape s _ _ Hs).
  eexists. split; [reflexivity|].
  set (N := numel (shape outputs)) in *.
  set (S := fold_right Rplus 0%R
              (map (fun k => ((item outputs k - item targets k) ^ 2)%R) (seq 0 N))).
  assert (HN : (0 < INR N)%R) by (apply lt_0_INR; exact Hn).
  assert (HS : (0 <= S)%R) by apply (sum_squares_nonneg (fun k => (item outputs k - item targets k)%R)).
  split; [|split].
  - apply Rmult_le_pos; [exact HS|]. apply Rlt_le, Rinv_0_lt_compat, HN.
  - intros Hv.
    assert (HS0 : S = 0%R).
    { apply Rmult_integral in Hv as [Hv|Hv]; [exact Hv|].
      pose proof (Rinv_0_lt_compat _ HN). lra. }
    destruct outputs as [so dout], targets as [st dt].
    cbn [shape data] in *. unfold well_formed in Ho, Ht. cbn [shape data] in Ho, Ht.
    f_equal; [exact Hs|].
    apply (nth_ext _ _ 0%R 0%R); [rewrite Ho, Ht, <- Hs; reflexivity|].
    intros k Hk.
    pose proof (sum_squares_zero
                  (fun k => (item (mkTensor so dout) k - item (mkTensor st dt) k)%R)
                  (seq 0 N) HS0 k) as Hz.
    unfold item in Hz. cbn [data] in Hz.
    assert (Hin : In k (seq 0 N)) by (apply in_seq; subst N; lia).
    specialize (Hz Hin). lra.
  - intros <-. unfold Rdiv.
    replace S with 0%R; [ring|].
    subst S. clear. induction (seq 0 N) as [|k l IH]; cbn [map fold_right]; [reflexivity|].
    rewrite <- IH. ring.
Qed.

Lemma loss_zero_iff_equal_witness :
  exists v,
    call loss [VTensor (mkTensor [2; 1] [1; 2]%R); VTensor (mkTensor [2; 1] [1; 1]%R)]
      (initial_state ∅ (fun _ => 0%R))
    = (Ok (VTensor (TensorOps.scalar v)), initial_state ∅ (fun _ => 0%R))
    /\ (0 <= v)%R
    /\ (v = 0%R <-> mkTensor [2; 1] [1; 2]%R = mkTensor [2; 1] [1; 1]%R).
Proof.
  apply (loss_zero_iff_equal (initial_state ∅ (fun _ => 0%R))
           (mkTensor [2; 1] [1; 2]%R) (mkTensor [2; 1] [1; 1]%R)).
  - reflexivity.
  - reflexivity.
  - reflexivity.
  - simpl. lia.
Defined.

Lemma fold_right_Rplus_app (l1 l2 : list R) :
  fold_right Rplus 0%R (l1 ++ l2)
  = (fold_right Rplus 0 l1 + fold_right Rplus 0 l2)%R.
Proof. induction l1 as [|a l1 IH]; cbn [app fold_right]; [ring|rewrite IH; ring]. Qed.

Lemma sum_over_map (n : nat) (g : nat -> R) :
  sum_over n g = fold_right Rplus 0%R (map g (seq 0 n)).
Proof.
  unfold sum_over. induction (seq 0 n) as [|k l IH]; cbn [map fold_right]; [reflexivity|].
  now rewrite IH.
Qed.

Lemma seq_add_map (n st len : nat) :
  seq (n + st) len = map (fun k => n + k) (seq st len).
Proof.
  revert st. induction len as [|len IH]; intros st; [reflexivity|].
  cbn [seq map]. f_equal. rewrite <- (IH (S st)). f_equal. lia.
Qed.

Lemma seq_from (n len : nat) : seq n len = map (fun k => n + k) (seq 0 len).
Proof. rewrite <- (seq_add_map n 0 len). f_equal. lia. Qed.

Lemma sum_div_mod (g : nat -> nat -> R) (m n : nat) :
  fold_right Rplus 0%R (map (fun k => g (k / n) (k mod n)) (seq 0 (m * n)))
  = sum_over m (fun i => sum_over n (fun j => g i j)).
Proof.
  destruct n as [|n'].
  { rewrite Nat.mul_0_r. cbn [seq map fold_right].
    rewrite sum_over_map. induction (seq 0 m) as [|k l IH]; cbn [map fold_right]; [reflexivity|].
    rewrite <- IH. unfold sum_over. cbn. ring. }
  set (n := S n'). assert (Hn : n <> 0) by (subst n; lia). clearbody n. clear n'.
  revert g. induction m as [|m IH]; intros g.
  - reflexivity.
  - replace (S m * n) with (n + m * n) by lia.
    rewrite seq_app, map_app, fold_right_Rplus_app. cbn [Nat.add].
    rewrite (sum_over_map (S m)).
    cbn [seq map fold_right]. rewrite <- seq_shift, map_map.
    rewrite <- (sum_over_map m (fun i => sum_over n (fun j => g (S i) j))).
    rewrite <- (IH (fun i j => g (S i) j)).
    f_equal.
    + rewrite sum_over_map. f_equal. apply map_ext_in. intros k Hk. apply in_seq in Hk.
      rewrite Nat.div_small, Nat.mod_small by lia. reflexivity.
    + f_equal. rewrite (seq_from n (m * n)).
      rewrite map_map. apply map_ext. intros k.
      replace (n + k) with (k + 1 * n) by lia.
      rewrite Nat.div_add, Nat.Div0.mod_add by assumption.
      f_equal. lia.
Qed.

(** X17.  The shapes of the notebook's call: outputs is a column of shape [m; 1]
    and targets a vector of shape [n].  The subtraction broadcasts to an
    m-by-n matrix, so loss returns the mean of (outputs[i] - targets[j])^2
    over all m * n pairs (i, j), not over the matching entries. *)
Theorem loss_column_against_vector (s : state) (outputs targets : Tensor) (m n : nat) :
  shape outputs = [m; 1] -> shape targets = [n] -> 0 < m -> 0 < n ->
  call loss [VTensor outputs; VTensor targets] s =
  (Ok (VTensor (TensorOps.scalar
         (sum_over m (fun i => sum_over n (fun j => (item outputs i - item targets j) ^ 2))
          / INR (m * n))%R)), s).
Proof.
  intros Ho Ht Hm Hn. rewrite loss_unfold.
  unfold TensorOps.sub, TensorOps.broadcast_op, TensorOps.broadcast_shapes.
  rewrite Ho, Ht. cbn [rev app].
  assert (Hb : TensorOps.broadcast_rev [1; m] [n] = Ok [n; m]).
  { cbn [TensorOps.broadcast_rev].
    destruct (Nat.eqb_spec 1 n) as [<-|Hne]; [reflexivity|].
    cbn [Nat.eqb mbind result_bind]. reflexivity. }
  rewrite Hb. cbn [mbind result_bind mret result_ret rev app].
  unfold TensorOps.mean, TensorOps.pow, TensorOps.pointwise. cbn [shape data].
  rewrite map_map, !length_map, length_seq.
  replace (numel [m; n]) with (m * n) by (cbn; lia).
  do 5 f_equal.
  rewrite <- (sum_div_mod (fun i j => ((item outputs i - item targets j) ^ 2)%R) m n).
  f_equal. apply map_ext_in. intros k Hk. apply in_seq in Hk.
  cbn [TensorOps.unravel_rev TensorOps.ravel_rev].
  assert (Hq : k / n < m) by (apply Nat.Div0.div_lt_upper_bound; lia).
  assert (Ha : (if 1 =? 1 then 0 else k mod n)
               + 1 * ((if m =? 1 then 0 else k / n mod m) + m * 0) = k / n).
  { cbn [Nat.eqb]. destruct (Nat.eqb_spec m 1) as [->|Hne].
    - lia.
    - rewrite Nat.mod_small by assumption. lia. }
  assert (Hc : (if n =? 1 then 0 else k mod n) + n * 0 = k mod n).
  { destruct (Nat.eqb_spec n 1) as [->|Hne].
    - rewrite Nat.mod_1_r. lia.
    - lia. }
  rewrite Ha, Hc. reflexivity.
Qed.

Lemma loss_column_against_vector_witness :
  call loss [VTensor (mkTensor [2; 1] [1; 2]%R); VTensor (TensorOps.vector [1; 2]%R)]
    (initial_state ∅ (fun _ => 0%R))
  = (Ok (VTensor (TensorOps.scalar
       (Rdiv (sum_over 2 (fun i => sum_over 2 (fun j =>
                Rpow_def.pow (Rminus (item (mkTensor [2; 1] [1; 2]%R) i)
                                     (item (TensorOps.vector [1; 2]%R) j)) 2)))
             (INR (2 * 2))))), initial_state ∅ (fun _ => 0%R)).
Proof.
  apply (loss_column_against_vector (initial_state ∅ (fun _ => 0%R))
           (mkTensor [2; 1] [1; 2]%R) (TensorOps.vector [1; 2]%R) 2 2);
    [reflexivity | reflexivity | lia | lia].
Defined.

End Loss.

(** ** The training loop of the classifier *)

Section Classifier_epochs.
Import torch Py Calls ClassifierTraining.

Lemma classifier_train_run (e : value) (s : state) :
  globals s !! "model" = Some VModel ->
  call train [e] s
  = (Ok VNone, set_model (nn.mkModule (nn._modules (model_obj s)) true) s).
Proof.
  destruct s as [l g m ge r]. simpl_state. intros Hm.
  unfold call.
  change (def_ok train) with true. cbv iota.
  change (bind_params (def_params train) [e])
    with (Some (list_to_map [("epoch", e)] : gmap string value)).
  cbv iota. simpl def_body.
  rewrite exec_suite_cons, exec_Expr.
  unfold Module_train, set_training. rewrite bind_run.
  rewrite load_global by reflexivity. simpl_state. rewrite Hm. reflexivity.
Qed.

Lemma classifier_test_run (s : state) :
  globals s !! "model" = Some VModel ->
  call test [] s
  = (Ok VNone, set_model (nn.mkModule (nn._modules (model_obj s)) false) s).
Proof.
  destruct s as [l g m ge r]. simpl_state. intros Hm.
  unfold call.
  change (def_ok test) with true. cbv iota.
  change (bind_params (def_params test) [])
    with (Some (list_to_map [] : gmap string value)).
  cbv iota. simpl def_body.
  rewrite exec_suite_cons, exec_Expr.
  unfold Module_eval, set_training. rewrite bind_run.
  rewrite load_global by reflexivity. simpl_state. rewrite Hm. reflexivity.
Qed.

(** One pass of the loop body: train(epoch); test(). *)
Lemma classifier_epoch_run (s : state) :
  globals s !! "model" = Some VModel ->
  is_Some (globals s !! "epoch") ->
  exec_suite [ Expr (e ← load "epoch"; call train [e]); Expr (call test []) ] s
  = Normal (set_model (nn.mkModule (nn._modules (model_obj s)) false) s).
Proof.
  destruct s as [l g m ge r]. simpl_state. intros Hm [v Hv].
  rewrite exec_suite_cons, exec_Expr, bind_run.
  assert (Hload : exists v', load "epoch" (mkState l g m ge r) = (Ok v', mkState l g m ge r)).
  { unfold load. simpl_state. destruct (l !! "epoch") as [v'|]; [now exists v'|].
    rewrite Hv. now exists v. }
  destruct Hload as [v' ->].
  rewrite classifier_train_run by exact Hm. simpl_state.
  rewrite exec_suite_cons, exec_Expr.
  rewrite classifier_test_run by exact Hm. simpl_state.
  reflexivity.
Qed.

(** One iteration: the target is bound in the notebook's namespace, then the
    body runs. *)
Lemma classifier_iteration (k : Z) (l g : gmap string value) (ms : gmap string nn.layer)
    (t ge : bool) (r : nat -> R) :
  g !! "model" = Some VModel ->
  exec_suite [ Expr (e ← load "epoch"; call train [e]); Expr (call test []) ]
    (mkState l (<["epoch" := VInt k]> g) (nn.mkModule ms t) ge r)
  = Normal (mkState l (<["epoch" := VInt k]> g) (nn.mkModule ms false) ge r).
Proof.
  intros Hm. rewrite classifier_epoch_run.
  - reflexivity.
  - simpl_state. rewrite lookup_insert_ne by discriminate. exact Hm.
  - simpl_state. rewrite lookup_insert_eq. now eexists.
Qed.

(** X18.  The four epochs of the second notebook, run as the notebook
    stands, learn nothing: both cells compile, the loop ends without an
    error, and it leaves every weight and bias of the model, the autograd
    mode and the random generator as they were; the model is left in
    evaluation mode.  Of the notebook's names only the loop target changes:
    epoch is bound to 4. *)
Theorem classifier_epochs_learn_nothing (s : state) :
  globals s !! "model" = Some VModel ->
  compile_cell train_cell = Ok ()
  /\ compile_cell epochs_cell = Ok ()
  /\ exists s',
       exec epochs s = Normal s'
       /\ parameters s' = parameters s
       /\ nn.training (model_obj s') = false
       /\ globals s' = <["epoch" := VInt 4]> (globals s)
       /\ locals s' = locals s
       /\ grad_enabled s' = grad_enabled s /\ rng s' = rng s.
Proof.
  intros Hm. split; [reflexivity|]. split; [reflexivity|].
  destruct s as [l g [ms t] ge r]. simpl_state_all.
  unfold epochs. rewrite exec_For.
  change (range 1 5 (mkState l g (nn.mkModule ms t) ge r))
    with (Ok [VInt 1; VInt 2; VInt 3; VInt 4], mkState l g (nn.mkModule ms t) ge r).
  cbv iota. cbn [for_loop]. unfold bind_name. simpl_state.
  rewrite classifier_iteration by exact Hm. simpl_state.
  rewrite insert_insert_eq.
  rewrite classifier_iteration by exact Hm. simpl_state.
  rewrite insert_insert_eq.
  rewrite classifier_iteration by exact Hm. simpl_state.
  rewrite insert_insert_eq.
  rewrite classifier_iteration by exact Hm.
  eexists. split; [reflexivity|].
  unfold parameters. simpl_state. cbn [nn._modules nn.training].
  repeat split.
Qed.

Lemma classifier_epochs_learn_nothing_witness :
  exists s',
    exec epochs AutodiffNnBasics.started = Normal s'
    /\ parameters s' = parameters AutodiffNnBasics.started
    /\ globals s' = <["epoch" := VInt 4]> (globals AutodiffNnBasics.started).
Proof.
  destruct (classifier_epochs_learn_nothing AutodiffNnBasics.started eq_refl)
    as (_ & _ & s' & Hrun & Hp & _ & Hg & _).
  exists s'. split; [exact Hrun|]. split; assumption.
Defined.

End Classifier_epochs.
